(** * simple-ml-demo-1: the static asset server and the screenshot script

    A shallow embedding of [simple_server.py] (the request handler
    [CustomHTTPRequestHandler], [find_free_port] and [main]) and of
    [jules-scratch/verification/verify_compact_ui.py] ([run]), with the
    properties of their natural-language specification.

    Python values are modelled as far as the two files use them: [str] as a
    list of 8-bit characters (the request line is decoded as ISO-8859-1 by
    [http.server], so one character is one byte), [int] as [Z], tuples,
    [None], and exceptions with the part of the class hierarchy that the
    [except] clauses of the source distinguish. *)

From Stdlib Require Import ZArith List Bool Ascii String DecimalString FinFun Lia.
From Equations Require Import Equations.
Import ListNotations.

Set Implicit Arguments.
Set Warnings "-register-all,-notation-for-abbreviation".
Local Open Scope string_scope.
Local Open Scope list_scope.
Local Open Scope Z_scope.

(** ** Python values *)

Module Py.

(** A Python [str]. *)
Definition str : Type := list ascii.

(** String literals of the source are written as Rocq string literals. *)
Definition lit (s : string) : str := list_ascii_of_string s.

(** Python values, as far as the two programs handle them. *)
Inductive value : Type :=
| VNone
| VInt (n : Z)
| VStr (s : str)
| VTuple (items : list value).

(** The exceptions that occur in the two programs.  [KeyboardInterrupt]
    and [SystemExit] derive from [BaseException] only; every other
    constructor is a subclass of [Exception]. *)
Inductive exc : Type :=
| KeyboardInterrupt
| SystemExit (code : value)
| OSError (msg : str)
| RuntimeError (msg : str)
| ValueError (msg : str)
| TypeError (msg : str)
| OverflowError (msg : str)
| OtherException (msg : str).

(** [isinstance(e, Exception)]. *)
Definition is_Exception (e : exc) : bool :=
  match e with
  | KeyboardInterrupt | SystemExit _ => false
  | _ => true
  end.

(** [isinstance(e, OSError)]. *)
Definition is_OSError (e : exc) : bool :=
  match e with
  | OSError _ => true
  | _ => false
  end.

(** [isinstance(e, KeyboardInterrupt)]. *)
Definition is_KeyboardInterrupt (e : exc) : bool :=
  match e with
  | KeyboardInterrupt => true
  | _ => false
  end.

(** [str(e)], as the f-string of [main] formats it for the exceptions
    derived from [Exception]. *)
Definition str_of_exc (e : exc) : str :=
  match e with
  | KeyboardInterrupt => []
  | SystemExit _ => []
  | OSError m | RuntimeError m | ValueError m | TypeError m
  | OverflowError m | OtherException m => m
  end.

(** The outcome of a statement or call: a value, or a raised exception. *)
Inductive result (A : Type) : Type :=
| Ok (a : A)
| Raise (e : exc).
Arguments Ok {A} a.
Arguments Raise {A} e.

Definition bind {A B} (r : result A) (k : A -> result B) : result B :=
  match r with
  | Ok a => k a
  | Raise e => Raise e
  end.

(** Tuple unpacking with two targets, [a, b = v]: any iterable of exactly
    two items is accepted (a two-character [str] yields its characters);
    a wrong number of items raises [ValueError], a value that cannot be
    iterated [TypeError]. *)
Definition unpack2 (v : value) : result (value * value) :=
  match v with
  | VTuple [a; b] => Ok (a, b)
  | VTuple (_ :: _ :: _ :: _) =>
      Raise (ValueError (lit "too many values to unpack (expected 2)"))
  | VTuple [_] =>
      Raise (ValueError (lit "not enough values to unpack (expected 2, got 1)"))
  | VTuple [] =>
      Raise (ValueError (lit "not enough values to unpack (expected 2, got 0)"))
  | VStr [a; b] => Ok (VStr [a], VStr [b])
  | VStr (_ :: _ :: _ :: _) =>
      Raise (ValueError (lit "too many values to unpack (expected 2)"))
  | VStr [_] =>
      Raise (ValueError (lit "not enough values to unpack (expected 2, got 1)"))
  | VStr [] =>
      Raise (ValueError (lit "not enough values to unpack (expected 2, got 0)"))
  | VNone => Raise (TypeError (lit "cannot unpack non-iterable NoneType object"))
  | VInt _ => Raise (TypeError (lit "cannot unpack non-iterable int object"))
  end.

(** *** [str] methods *)

Fixpoint str_eqb (a b : str) : bool :=
  match a, b with
  | [], [] => true
  | x :: a', y :: b' => Ascii.eqb x y && str_eqb a' b'
  | _, _ => false
  end.

(** [s.endswith(suffix)]: the last [len(suffix)] characters of [s] are
    [suffix]. *)
Definition endswith (s suffix : str) : bool :=
  (List.length suffix <=? List.length s)%nat
  && str_eqb (skipn (List.length s - List.length suffix) s) suffix.

(** [c in s]. *)
Definition contains (c : ascii) (s : str) : bool :=
  existsb (Ascii.eqb c) s.

(** [s.find(c)], [-1] when [c] does not occur; [i] is the index of the
    head of [s]. *)
Fixpoint find_from (c : ascii) (s : str) (i : Z) : Z :=
  match s with
  | [] => -1
  | x :: s' => if Ascii.eqb x c then i else find_from c s' (i + 1)
  end.

Definition find (c : ascii) (s : str) : Z := find_from c s 0.

(** [s.rfind(c)], [-1] when [c] does not occur. *)
Fixpoint rfind_from (c : ascii) (s : str) (i last : Z) : Z :=
  match s with
  | [] => last
  | x :: s' => rfind_from c s' (i + 1) (if Ascii.eqb x c then i else last)
  end.

Definition rfind (c : ascii) (s : str) : Z := rfind_from c s 0 (-1).

(** The slices [s[:i]] and [s[i:]] for an index [0 <= i]. *)
Definition slice_to (s : str) (i : Z) : str := firstn (Z.to_nat i) s.
Definition slice_from (s : str) (i : Z) : str := skipn (Z.to_nat i) s.

(** [s[i:i+1]]: the character at [i] as a [str], empty out of range. *)
Definition char_at (s : str) (i : Z) : str :=
  firstn 1 (skipn (Z.to_nat i) s).

End Py.

Import Py.

Coercion Py.lit : string >-> Py.str.

(** ** [posixpath.splitext]

    The extension of a path, as the inherited type guesser computes it:
    everything from the last dot of the last component on, leading dots of
    the component ignored. *)

Module PosixPath.

Definition sep : ascii := "/"%char.
Definition extsep : ascii := "."%char.

(** The loop of [genericpath._splitext] that skips the leading dots:
    [Some] of the split when a character other than a dot precedes the
    last dot, [None] when the loop runs out. *)
Equations? skip_leading_dots (p : str) (dotIndex filenameIndex : Z)
  : option (str * str) by wf (Z.to_nat (dotIndex - filenameIndex)) lt :=
  skip_leading_dots p dotIndex filenameIndex with Z_lt_dec filenameIndex dotIndex := {
    | left _ =>
        if str_eqb (char_at p filenameIndex) [extsep]
        then skip_leading_dots p dotIndex (filenameIndex + 1)
        else Some (slice_to p dotIndex, slice_from p dotIndex)
    | right _ => None }.
Proof. lia. Qed.

Definition splitext (p : str) : str * str :=
  let sepIndex := rfind sep p in
  let dotIndex := rfind extsep p in
  if dotIndex >? sepIndex then
    match skip_leading_dots p dotIndex (sepIndex + 1) with
    | Some r => r
    | None => (p, [])
    end
  else (p, []).

(** The extension of a path: the second component of [splitext]. *)
Definition extension (path : str) : str := snd (splitext path).

End PosixPath.

(** ** The inherited type guesser

    [http.server.SimpleHTTPRequestHandler.guess_type], the method that
    [super().guess_type] of the handler resolves to.  Its documentation
    reads: the return value is a string of the form type/subtype, usable
    for a MIME Content-type header. *)

Module SimpleHTTPRequestHandler.

(** The class attribute [extensions_map]. *)
Definition extensions_map : list (str * str) :=
  [ (lit ".gz", lit "application/gzip");
    (lit ".Z", lit "application/octet-stream");
    (lit ".bz2", lit "application/x-bzip2");
    (lit ".xz", lit "application/x-xz") ].

Fixpoint get (k : str) (m : list (str * str)) : option str :=
  match m with
  | [] => None
  | (k', v) :: m' => if str_eqb k k' then Some v else get k m'
  end.

(** [c.lower()] on an ISO-8859-1 character. *)
Definition lower_char (c : ascii) : ascii :=
  let n := nat_of_ascii c in
  if (((65 <=? n) && (n <=? 90))
      || ((192 <=? n) && (n <=? 222) && negb (n =? 215)))%nat
  then ascii_of_nat (n + 32) else c.

Section GuessType.

(** The type that [mimetypes.guess_type] finds for a path in the
    tables of the platform, [None] when it finds none. *)
Variable mimetypes_guess_type : str -> option str.

Definition guess_type (path : str) : value :=
  let ext := snd (PosixPath.splitext path) in
  match get ext extensions_map with
  | Some t => VStr t
  | None =>
      let ext := map lower_char ext in
      match get ext extensions_map with
      | Some t => VStr t
      | None =>
          match mimetypes_guess_type path with
          | Some (c :: guess) => VStr (c :: guess)
          | _ => VStr "application/octet-stream"
          end
      end
  end.

End GuessType.

(** A platform whose type tables know no file type. *)
Definition no_mimetypes : str -> option str := fun _ => None.

End SimpleHTTPRequestHandler.

(** ** The request handler *)

Module CustomHTTPRequestHandler.

(** The file-name suffixes that [guess_type] tests, in source order. *)
Definition override_suffixes : list str :=
  [ lit ".tsx"; lit ".ts"; lit ".jsx"; lit ".js"; lit ".json";
    lit ".css"; lit ".html"; lit ".svg"; lit ".ico" ].

(** The documented content type of each override suffix. *)
Definition documented_type (ext : str) : option str :=
  if str_eqb ext ".tsx" then Some (lit "application/javascript")
  else if str_eqb ext ".ts" then Some (lit "application/javascript")
  else if str_eqb ext ".jsx" then Some (lit "application/javascript")
  else if str_eqb ext ".js" then Some (lit "application/javascript")
  else if str_eqb ext ".json" then Some (lit "application/json")
  else if str_eqb ext ".css" then Some (lit "text/css")
  else if str_eqb ext ".html" then Some (lit "text/html")
  else if str_eqb ext ".svg" then Some (lit "image/svg+xml")
  else if str_eqb ext ".ico" then Some (lit "image/x-icon")
  else None.

Section GuessType.

(** [super().guess_type]: the type guesser inherited from
    [http.server.SimpleHTTPRequestHandler], which is not part of the
    repository.  It may return any Python value. *)
Variable super_guess_type : str -> value.

(** [guess_type(self, path)], lines 19-39. *)
Definition guess_type (path : str) : result value :=
  bind (unpack2 (super_guess_type path)) (fun '(mimetype, encoding) =>
    if endswith path ".tsx" || endswith path ".ts" then
      Ok (VTuple [VStr "application/javascript"; encoding])
    else if endswith path ".jsx" || endswith path ".js" then
      Ok (VTuple [VStr "application/javascript"; encoding])
    else if endswith path ".json" then
      Ok (VTuple [VStr "application/json"; encoding])
    else if endswith path ".css" then
      Ok (VTuple [VStr "text/css"; encoding])
    else if endswith path ".html" then
      Ok (VTuple [VStr "text/html"; encoding])
    else if endswith path ".svg" then
      Ok (VTuple [VStr "image/svg+xml"; encoding])
    else if endswith path ".ico" then
      Ok (VTuple [VStr "image/x-icon"; encoding])
    else Ok (VTuple [mimetype; encoding])).

End GuessType.

End CustomHTTPRequestHandler.

(** ** [urllib.parse.urlparse]

    The handler reads the [path] field of [urlparse(self.path)].  The
    splitting steps of [urlsplit] and [urlparse] are modelled in the order
    the library performs them; the two validations of a network location
    (IPv6 literals and NFKC normalisation) are parameters, since a request
    target that begins with a single slash has no network location. *)

Module UrlParse.

Record ParseResult : Type := mkParseResult {
  scheme : str;
  netloc : str;
  path : str;
  params : str;
  query : str;
  fragment : str
}.

(** Membership in [_WHATWG_C0_CONTROL_OR_SPACE]: the codes 0 to 32. *)
Definition is_c0_control_or_space (c : ascii) : bool :=
  (nat_of_ascii c <=? 32)%nat.

(** [url.lstrip(_WHATWG_C0_CONTROL_OR_SPACE)]. *)
Fixpoint lstrip (s : str) : str :=
  match s with
  | [] => []
  | c :: s' => if is_c0_control_or_space c then lstrip s' else s
  end.

(** Membership in [_UNSAFE_URL_BYTES_TO_REMOVE]: tab, CR and LF. *)
Definition is_unsafe_byte (c : ascii) : bool :=
  let n := nat_of_ascii c in
  ((n =? 9) || (n =? 13) || (n =? 10))%nat.

Definition remove_unsafe_bytes (s : str) : str :=
  filter (fun c => negb (is_unsafe_byte c)) s.

(** [c.isascii() and c.isalpha()]. *)
Definition is_ascii_alpha (c : ascii) : bool :=
  let n := nat_of_ascii c in
  (((65 <=? n) && (n <=? 90)) || ((97 <=? n) && (n <=? 122)))%nat.

(** Membership in [scheme_chars]: letters, digits, [+], [-] and [.]. *)
Definition is_scheme_char (c : ascii) : bool :=
  let n := nat_of_ascii c in
  (is_ascii_alpha c || ((48 <=? n) && (n <=? 57))
   || (n =? 43) || (n =? 45) || (n =? 46))%nat.

(** [s.isascii()]; it holds of the empty string. *)
Definition is_ascii_str (s : str) : bool :=
  forallb (fun c => (nat_of_ascii c <? 128)%nat) s.

(** [c.lower()] on the characters a scheme may hold. *)
Definition lower_char (c : ascii) : ascii :=
  let n := nat_of_ascii c in
  if ((65 <=? n) && (n <=? 90))%nat then ascii_of_nat (n + 32) else c.

(** [s.split(c, 1)] for an [s] that holds [c]: the text before the first
    [c] and the text after it. *)
Fixpoint split_once (c : ascii) (s : str) : str * str :=
  match s with
  | [] => ([], [])
  | x :: s' =>
      if Ascii.eqb x c then ([], s')
      else let '(before, after) := split_once c s' in (x :: before, after)
  end.

(** The scheme test of [urlsplit]: [(scheme, rest)]. *)
Definition split_scheme (url : str) : str * str :=
  let i := find ":"%char url in
  if (i >? 0)
     && match url with c :: _ => is_ascii_alpha c | [] => false end
     && forallb is_scheme_char (slice_to url i)
  then (map lower_char (slice_to url i), slice_from url (i + 1))
  else ([], url).

(** [_splitnetloc(url, 2)]. *)
Definition splitnetloc (url : str) : str * str :=
  let delim :=
    fold_left
      (fun delim c =>
         let wdelim := find_from c (slice_from url 2) 2 in
         if wdelim >=? 0 then Z.min delim wdelim else delim)
      [ "/"%char; "?"%char; "#"%char ]
      (Z.of_nat (List.length url)) in
  (slice_to (slice_from url 2) (delim - 2), slice_from url delim).

(** [uses_params]. *)
Definition uses_params : list str :=
  [ lit ""; lit "ftp"; lit "hdl"; lit "prospero"; lit "http"; lit "imap";
    lit "https"; lit "shttp"; lit "rtsp"; lit "rtspu"; lit "sip";
    lit "sips"; lit "mms"; lit "sftp"; lit "tel" ].

(** [_splitparams(url)], called when [url] holds a semicolon. *)
Definition splitparams (url : str) : str * str :=
  if contains "/"%char url then
    let r := rfind "/"%char url in
    let i := find_from ";"%char (slice_from url r) r in
    if i <? 0 then (url, [])
    else (slice_to url i, slice_from url (i + 1))
  else
    let i := find ";"%char url in
    (slice_to url i, slice_from url (i + 1)).

Section Parse.

(** [_check_bracketed_netloc], and the normalisation test that
    [_checknetloc] makes on a network location that is not plain
    ASCII: [Some e] when the check raises [e]. *)
Variable check_bracketed_netloc : str -> option exc.
Variable checknetloc : str -> option exc.

Definition check (c : option exc) : result unit :=
  match c with
  | Some e => Raise e
  | None => Ok tt
  end.

(** [urlsplit(url)]: scheme, netloc, path, query, fragment. *)
Definition urlsplit (url : str) : result (str * str * str * str * str) :=
  let url := lstrip url in
  let url := remove_unsafe_bytes url in
  let '(scheme, url) := split_scheme url in
  bind
    (if str_eqb (firstn 2 url) "//" then
       let '(netloc, url) := splitnetloc url in
       if (contains "["%char netloc && negb (contains "]"%char netloc))
          || (contains "]"%char netloc && negb (contains "["%char netloc))
       then Raise (ValueError "Invalid IPv6 URL")
       else
         bind (if contains "["%char netloc && contains "]"%char netloc
               then check (check_bracketed_netloc netloc)
               else Ok tt) (fun _ => Ok (netloc, url))
     else Ok ([], url))
    (fun '(netloc, url) =>
       let '(url, fragment) :=
         if contains "#"%char url then split_once "#"%char url
         else (url, []) in
       let '(url, query) :=
         if contains "?"%char url then split_once "?"%char url
         else (url, []) in
       bind (if is_ascii_str netloc then Ok tt
             else check (checknetloc netloc)) (fun _ =>
         Ok (scheme, netloc, url, query, fragment))).

(** [urlparse(url)]. *)
Definition urlparse (url : str) : result ParseResult :=
  bind (urlsplit url) (fun '(scheme, netloc, url, query, fragment) =>
    let '(url, params) :=
      if existsb (str_eqb scheme) uses_params && contains ";"%char url
      then splitparams url
      else (url, []) in
    Ok (mkParseResult scheme netloc url params query fragment)).

End Parse.

(** A request target without query: it starts with a character that is
    neither stripped nor a letter, does not start with two slashes, and
    holds none of the characters that [urlparse] removes or splits at. *)
Definition plain_path (p : str) : bool :=
  match p with
  | [] => false
  | c :: _ =>
      negb (is_c0_control_or_space c)
      && negb (is_ascii_alpha c)
      && negb (str_eqb (firstn 2 p) "//")
      && forallb
           (fun c => negb (is_unsafe_byte c)
                     && negb (Ascii.eqb c "#"%char)
                     && negb (Ascii.eqb c "?"%char)
                     && negb (Ascii.eqb c ";"%char)) p
  end.

(** A text without the characters that end a path parameter or a network
    location ([/], [?], [#]) and without the bytes that [urlsplit]
    removes. *)
Definition free_of_delimiters (x : str) : bool :=
  forallb
    (fun c => negb (is_unsafe_byte c)
              && negb (Ascii.eqb c "#"%char)
              && negb (Ascii.eqb c "?"%char)
              && negb (Ascii.eqb c "/"%char)) x.

End UrlParse.

(** ** Request handling *)

Module Handler.

Import UrlParse.

(** The calls that [do_GET] makes on the handler object. *)
Inductive call : Type :=
| send_response (code : Z)
| send_header (keyword : str) (value : str)
| end_headers
| super_do_GET.

(** What goes out on the connection. *)
Inductive wire : Type :=
| StatusLine (code : Z)
| Header (keyword : str) (value : str)
| EndOfHeaders
| Body (content : str).

Section Serving.

Variable check_bracketed_netloc : str -> option exc.
Variable checknetloc : str -> option exc.

(** [do_GET(self)], lines 41-60; [self_path] is [self.path], the request
    target. *)
Definition do_GET (self_path : str) : result (list call) :=
  bind (urlparse check_bracketed_netloc checknetloc self_path)
    (fun parsed_path =>
       if str_eqb (path parsed_path) "/" then
         Ok [ send_response 302;
              send_header "Location" "/index-standalone.html";
              end_headers ]
       else if str_eqb (path parsed_path) "/favicon.ico" then
         Ok [ send_response 404; end_headers ]
       else Ok [ super_do_GET ]).

(** The served directory, and what the library does with it. *)
Variable filesystem : Type.

(** [super().guess_type], the guesser that [guess_type] of the handler
    wraps. *)
Variable super_guess_type : str -> value.

(** [self.guess_type], as the inherited code finds it on the handler
    object: the override of lines 19-39. *)
Definition self_guess_type : str -> result value :=
  CustomHTTPRequestHandler.guess_type super_guess_type.

(** [SimpleHTTPRequestHandler.do_GET] and [.do_HEAD], the inherited file
    serving, run on the handler object: they are given its [guess_type],
    which they call through [self], and they may raise.  [Raise e] says
    that [e] left the method.  [unsupported_method] is the answer of
    [BaseHTTPRequestHandler] to a command without method,
    [send_error(501, "Unsupported method (%r)" % command)]. *)
Variable SimpleHTTPRequestHandler_do_GET :
  (str -> result value) -> filesystem -> str -> result (list wire).
Variable SimpleHTTPRequestHandler_do_HEAD :
  (str -> result value) -> filesystem -> str -> result (list wire).
Variable unsupported_method : str -> list wire.

(** The [Server] and [Date] header values that
    [BaseHTTPRequestHandler.send_response] adds. *)
Variable version_string : str.
Variable date_time_string : str.

(** The effect of one call on the connection, for a request of
    HTTP/1.0 or later (for the version HTTP/0.9 the library sends no
    status line and no headers). *)
Definition perform (fs : filesystem) (self_path : str) (c : call)
  : result (list wire) :=
  match c with
  | send_response code =>
      Ok [ StatusLine code;
           Header "Server" version_string;
           Header "Date" date_time_string ]
  | send_header k v => Ok [ Header k v ]
  | end_headers => Ok [ EndOfHeaders ]
  | super_do_GET => SimpleHTTPRequestHandler_do_GET self_guess_type fs self_path
  end.

(** The calls in order; an exception ends them. *)
Fixpoint perform_all (fs : filesystem) (self_path : str) (calls : list call)
  : result (list wire) :=
  match calls with
  | [] => Ok []
  | c :: calls' =>
      bind (perform fs self_path c) (fun sent =>
        bind (perform_all fs self_path calls') (fun sent' =>
          Ok (sent ++ sent')))
  end.

(** A GET request served by the handler. *)
Definition serve_GET (fs : filesystem) (self_path : str) : result (list wire) :=
  bind (do_GET self_path) (perform_all fs self_path).

(** *** Method resolution *)

Inductive class : Type :=
| CustomHTTPRequestHandler_class
| SimpleHTTPRequestHandler_class
| BaseHTTPRequestHandler_class.

(** The method resolution order of the handler class. *)
Definition mro : list class :=
  [ CustomHTTPRequestHandler_class;
    SimpleHTTPRequestHandler_class;
    BaseHTTPRequestHandler_class ].

(** The methods each class body defines; for the two library classes,
    their request methods ([do_*]). *)
Definition methods (c : class) : list str :=
  match c with
  | CustomHTTPRequestHandler_class =>
      [ lit "__init__"; lit "guess_type"; lit "do_GET"; lit "log_message" ]
  | SimpleHTTPRequestHandler_class => [ lit "do_GET"; lit "do_HEAD" ]
  | BaseHTTPRequestHandler_class => []
  end.

(** [getattr(self, mname)]: the first class of the resolution order
    that defines [mname]. *)
Definition resolve (mname : str) : option class :=
  List.find (fun c => existsb (str_eqb mname) (methods c)) mro.

(** [BaseHTTPRequestHandler.handle_one_request] after the request line
    is parsed: look up ['do_' + command] and call it. *)
Definition handle_one_request (fs : filesystem) (command self_path : str)
  : result (list wire) :=
  let mname := lit "do_" ++ command in
  match resolve mname with
  | None => Ok (unsupported_method command)
  | Some CustomHTTPRequestHandler_class => serve_GET fs self_path
  | Some _ =>
      if str_eqb mname "do_GET"
      then SimpleHTTPRequestHandler_do_GET self_guess_type fs self_path
      else SimpleHTTPRequestHandler_do_HEAD self_guess_type fs self_path
  end.

End Serving.

(** The calls of the two special cases, and what they send. *)
Definition redirect_calls : list call :=
  [ send_response 302;
    send_header "Location" "/index-standalone.html";
    end_headers ].

Definition not_found_calls : list call :=
  [ send_response 404; end_headers ].

Definition redirect_wire (version_string date_time_string : str) : list wire :=
  [ StatusLine 302;
    Header "Server" version_string;
    Header "Date" date_time_string;
    Header "Location" "/index-standalone.html";
    EndOfHeaders ].

Definition not_found_wire (version_string date_time_string : str) : list wire :=
  [ StatusLine 404;
    Header "Server" version_string;
    Header "Date" date_time_string;
    EndOfHeaders ].

(** A library without checks, an empty directory and an inherited handler
    that answers every request with a bare 200: the setting of the worked
    instances below. *)
Definition no_check : str -> option exc := fun _ => None.
Definition plain_ok : (str -> result value) -> unit -> str -> result (list wire) :=
  fun _ _ _ => Ok [ StatusLine 200; EndOfHeaders ].
Definition not_implemented : str -> list wire :=
  fun _ => [ StatusLine 501; EndOfHeaders ].

(** The inherited type guesser on a platform whose type tables know no
    file type. *)
Definition octet_stream : str -> value :=
  SimpleHTTPRequestHandler.guess_type SimpleHTTPRequestHandler.no_mimetypes.

End Handler.

(** ** The inherited file serving

    [http.server.SimpleHTTPRequestHandler.send_head], the common code of
    the inherited [do_GET] and [do_HEAD], up to the point where the file
    is opened.  It calls [self.guess_type], so on the handler of this
    program it runs the override.  The parts that depend on the content of
    the served directory or that only format text are parameters. *)

Module InheritedServing.

Import UrlParse Handler.

(** [posixpath.join(path, name)] for a [name] that does not start with a
    slash. *)
Definition join (path name : str) : str :=
  if match path with [] => true | _ :: _ => false end || endswith path "/"
  then path ++ name
  else path ++ lit "/" ++ name.

Section SendHead.

Variable check_bracketed_netloc : str -> option exc.
Variable checknetloc : str -> option exc.
Variable filesystem : Type.

(** [translate_path]: the request target as a path below the served
    directory. *)
Variable translate_path : str -> str.

(** [os.path.isdir], [os.path.isfile] and [os.listdir] ([None] when it
    raises [OSError]). *)
Variable isdir : filesystem -> str -> bool.
Variable isfile : filesystem -> str -> bool.
Variable listdir : filesystem -> str -> option (list str).

(** [urllib.parse.urlunsplit]. *)
Variable urlunsplit : str * str * str * str * str -> str.

(** What [send_error] sends after the [Connection] header (the headers
    of the error page, the end of the headers and the page itself), for
    the code, the message and a HEAD request or not. *)
Variable error_page : Z -> str -> bool -> list wire.

(** What [list_directory] sends after the status line of its 200
    response: the headers and the page of the listing. *)
Variable listing_page : filesystem -> str -> str -> list str -> bool -> list wire.

(** What [send_head] and the copying of the file do once the type is
    known, from the test of a trailing slash on: the 404 of a file that
    cannot be opened, the 304 or the 200 with the file. *)
Variable send_file : filesystem -> str -> value -> bool -> result (list wire).

Variable version_string : str.
Variable date_time_string : str.

(** [send_response(code)]. *)
Definition send_response (code : Z) : list wire :=
  [ StatusLine code;
    Header "Server" version_string;
    Header "Date" date_time_string ].

(** [send_error(code, message)]. *)
Definition send_error (code : Z) (message : str) (head_only : bool) : list wire :=
  send_response code ++ Header "Connection" "close"
                     :: error_page code message head_only.

(** [list_directory(path)]. *)
Definition list_directory (fs : filesystem) (self_path path : str)
           (head_only : bool) : list wire :=
  match listdir fs path with
  | None => send_error 404 "No permission to list directory" head_only
  | Some names =>
      send_response 200 ++ listing_page fs self_path path names head_only
  end.

Section Method.

(** [self.guess_type]. *)
Variable guess_type : str -> result value.

(** From [ctype = self.guess_type(path)] on. *)
Definition serve_file (fs : filesystem) (path : str) (head_only : bool)
  : result (list wire) :=
  bind (guess_type path) (fun ctype => send_file fs path ctype head_only).

(** [send_head()], with the copying of the body that [do_GET] adds when
    [head_only] is [false]. *)
Definition send_head (fs : filesystem) (self_path : str) (head_only : bool)
  : result (list wire) :=
  let path := translate_path self_path in
  if isdir fs path then
    bind (urlsplit check_bracketed_netloc checknetloc self_path)
      (fun '(scheme, netloc, url, query, fragment) =>
         if negb (endswith url "/") then
           Ok (send_response 301
               ++ [ Header "Location"
                           (urlunsplit (scheme, netloc, url ++ lit "/",
                                        query, fragment));
                    Header "Content-Length" "0";
                    EndOfHeaders ])
         else if isfile fs (join path "index.html") then
           serve_file fs (join path "index.html") head_only
         else if isfile fs (join path "index.htm") then
           serve_file fs (join path "index.htm") head_only
         else Ok (list_directory fs self_path path head_only))
  else serve_file fs path head_only.

(** The inherited [do_GET] and [do_HEAD]. *)
Definition do_GET (fs : filesystem) (self_path : str) : result (list wire) :=
  send_head fs self_path false.

Definition do_HEAD (fs : filesystem) (self_path : str) : result (list wire) :=
  send_head fs self_path true.

End Method.

End SendHead.

(** A served directory [/srv/www] that holds the file
    [index-standalone.html] and nothing else. *)
Definition site_translate_path (self_path : str) : str :=
  lit "/srv/www" ++ self_path.

Definition site_isdir (_ : unit) (path : str) : bool :=
  str_eqb path "/srv/www/".

Definition site_isfile (_ : unit) (path : str) : bool :=
  str_eqb path "/srv/www/index-standalone.html".

Definition site_listdir (_ : unit) (path : str) : option (list str) :=
  if str_eqb path "/srv/www/" then Some [ lit "index-standalone.html" ]
  else None.

Definition site_urlunsplit (parts : str * str * str * str * str) : str :=
  let '(_, _, url, _, _) := parts in url.

Definition site_error_page (_ : Z) (_ : str) (_ : bool) : list wire :=
  [ EndOfHeaders ].

Definition site_listing_page (_ : unit) (_ _ : str) (_ : list str) (_ : bool)
  : list wire :=
  [ EndOfHeaders ].

Definition site_send_file (_ : unit) (_ : str) (_ : value) (_ : bool)
  : result (list wire) :=
  Ok [ StatusLine 200; EndOfHeaders ].

End InheritedServing.

(** ** Port selection and the entry point *)

Module Server.

(** How a call of [find_free_port] ends. *)
Inductive outcome : Type :=
| Returned (port : Z)          (* [return port], line 75 *)
| PortExhaustion               (* [raise RuntimeError(...)], line 79 *)
| Propagated (e : exc).        (* an exception of a probe that line 76 does not catch *)

Definition port_exhaustion_error : exc :=
  RuntimeError "Could not find a free port".

(** The outcome as the caller sees it. *)
Definition to_result (o : outcome) : result Z :=
  match o with
  | Returned port => Ok port
  | PortExhaustion => Raise port_exhaustion_error
  | Propagated e => Raise e
  end.

Section FindFreePort.

(** One probe, lines 73-74: create a socket, bind it to [port] and close
    it again.  [None] when the bind succeeds, [Some e] when the probe
    raises [e]. *)
Variable probe : Z -> option exc.

(** The [while] loop of lines 71-77, from the current [port]: the ports
    probed, in order, and the outcome. *)
Equations? find_free_port_loop (start_port port : Z) : list Z * outcome
  by wf (Z.to_nat (start_port + 100 - port)) lt :=
  find_free_port_loop start_port port with Z_lt_dec port (start_port + 100) := {
    | left _ with probe port => {
        | None => ([port], Returned port)
        | Some e with is_OSError e => {
            | true =>
                let '(probed, o) := find_free_port_loop start_port (port + 1) in
                (port :: probed, o)
            | false => ([port], Propagated e) } }
    | right _ => ([], PortExhaustion) }.
Proof. lia. Qed.

(** [find_free_port(start_port)], lines 66-79. *)
Definition find_free_port (start_port : Z) : list Z * outcome :=
  find_free_port_loop start_port start_port.

(** The probe of [port] failed the way line 76 expects: it raised an
    [OSError]. *)
Definition bind_failed (port : Z) : Prop :=
  exists e, probe port = Some e /\ is_OSError e = true.

Definition bind_succeeded (port : Z) : Prop := probe port = None.

(** The consecutive ports from [lo] up to, not including, [hi]. *)
Definition ports (lo hi : Z) : list Z :=
  map (fun i => lo + Z.of_nat i) (seq 0 (Z.to_nat (hi - lo))).

(** What a run of the loop from [port] has done when it ends with the
    outcome [o] after probing [probed]: the ports from [port] on were
    probed in order, each probe before the last one raised [OSError],
    and the last probe, or the end of the window, decided the
    outcome. *)
Definition loop_post (start_port port : Z) (r : list Z * outcome) : Prop :=
  let '(probed, o) := r in
  match o with
  | Returned p =>
      port <= p < start_port + 100
      /\ bind_succeeded p
      /\ (forall q, port <= q < p -> bind_failed q)
      /\ probed = ports port (p + 1)
  | PortExhaustion =>
      (forall q, port <= q < start_port + 100 -> bind_failed q)
      /\ probed = ports port (start_port + 100)
  | Propagated e =>
      exists p,
        port <= p < start_port + 100
        /\ probe p = Some e /\ is_OSError e = false
        /\ (forall q, port <= q < p -> bind_failed q)
        /\ probed = ports port (p + 1)
  end.

End FindFreePort.

(** The ports 8080 and 8081 are taken, 8082 is free. *)
Definition two_taken (port : Z) : option exc :=
  if port <? 8082 then Some (OSError "[Errno 98] Address already in use")
  else None.

(** Every port up to 65535 is taken, and a bind to a larger number raises
    [OverflowError], as the socket library does. *)
Definition taken_up_to_the_last (port : Z) : option exc :=
  if port <? 65536 then Some (OSError "[Errno 98] Address already in use")
  else Some (OverflowError "bind(): port must be 0-65535.").

(** As [two_taken] on the ports 8080 to 8179; every other port is taken. *)
Definition two_taken_in_window (port : Z) : option exc :=
  if (8080 <=? port) && (port <? 8180) then two_taken port
  else Some (OSError "[Errno 98] Address already in use").

(** The port 8080 is taken, and the search is interrupted from the keyboard
    while 8081 is probed. *)
Definition interrupted_at_8081 (port : Z) : option exc :=
  if port <? 8081 then Some (OSError "[Errno 98] Address already in use")
  else Some KeyboardInterrupt.

(** *** [main] *)

(** [str(port)]. *)
Definition str_of_int (n : Z) : str :=
  lit (DecimalString.NilZero.string_of_int (Z.to_int n)).

(** What the process leaves behind: the lines printed on standard output
    and the exit status. *)
Record process : Type := mkProcess {
  stdout : list str;
  exit_status : Z
}.

(** The exit status of a process that ends with an uncaught
    [SystemExit(code)], on a POSIX system with a 64-bit C [long]: 0 for
    [None]; for an [int] that fits a C [long] its low eight bits, 255 for
    one that does not; 1 for anything else (which is printed on standard
    error). *)
Definition exit_status_of (code : value) : Z :=
  match code with
  | VNone => 0
  | VInt n =>
      if (- 2 ^ 63 <=? n) && (n <? 2 ^ 63) then n mod 256 else 255
  | _ => 1
  end.

(** The banner of lines 86-95. *)
Definition banner (port : Z) : list str :=
  [ lit "🚀 Interactive CNN Trainer - Python HTTP Server";
    List.concat (repeat (lit "=") 50);
    lit "🌐 Starting server on port " ++ str_of_int port ++ lit "...";
    lit "   Open your browser and navigate to:";
    lit "   ";
    lit "   http://localhost:" ++ str_of_int port;
    lit "   ";
    lit "   The server will automatically redirect to the standalone version";
    lit "   Press Ctrl+C to stop the server";
    lit "" ].

Definition stopped_message : str :=
  String (ascii_of_nat 10) "🛑 Server stopped by user".

Definition error_message (e : exc) : str :=
  lit "❌ Error starting server: " ++ str_of_exc e.

Section Main.

Variable probe : Z -> option exc.

(** Lines 98-102 on the selected port: change directory, bind the
    server and serve until something ends it.  [Ok tt] when
    [serve_forever] returns. *)
Variable serve : Z -> result unit.

(** The [try] block, lines 84-102: the lines printed, and how the block
    ends. *)
Definition try_block : list str * result unit :=
  match to_result (snd (find_free_port probe 8080)) with
  | Ok port => (banner port, serve port)
  | Raise e => ([], Raise e)
  end.

(** [main()] run as the script, lines 81-108: the two [except] clauses,
    and the exit status of the interpreter.  A [SystemExit] is caught by
    neither clause and ends the process with the status of its code. *)
Definition main : process :=
  match try_block with
  | (out, Ok _) => mkProcess out 0
  | (out, Raise e) =>
      if is_KeyboardInterrupt e then
        mkProcess (out ++ [stopped_message]) 0
      else if is_Exception e then
        mkProcess (out ++ [error_message e]) 1
      else
        match e with
        | SystemExit code => mkProcess out (exit_status_of code)
        | _ => mkProcess out 1
        end
  end.

End Main.

Definition interrupted : Z -> result unit := fun _ => Raise KeyboardInterrupt.
Definition denied : Z -> result unit :=
  fun _ => Raise (OSError "[Errno 13] Permission denied").


End Server.

(** ** The visual verification script *)

Module VerifyCompactUI.

Record viewport_size : Type := mkViewport { width : Z; height : Z }.

(** The browser-automation calls of [run], with the arguments the script
    passes; a keyword argument the script leaves out is [None]. *)
Inductive call : Type :=
| chromium_launch (headless : option bool)
| new_page
| set_viewport_size (size : viewport_size)
| goto (url : str)
| screenshot (path : option str) (full_page : option bool)
| close.

(** An image file: the page it shows, the viewport it was taken with,
    whether it covers the full scrollable page or the viewport only, and
    the browser that took it ([Some true] for a headless one). *)
Record capture : Type := mkCapture {
  shot_url : str;
  shot_size : viewport_size;
  shot_full_page : bool;
  shot_browser : option bool
}.

(** The browser, its one page, and the files written. *)
Record world : Type := mkWorld {
  log : list call;                       (* the calls made, oldest first *)
  running : option bool;                 (* [Some headless] while a browser runs *)
  page_viewport : option viewport_size;  (* [Some] while the page is open *)
  page_url : str;
  files : list (str * capture)
}.

Definition initial : world := mkWorld [] None None "" [].

(** The defaults of the automation library for the arguments the script
    leaves out. *)
Definition default_headless : bool := true.
Definition default_full_page : bool := false.
Definition default_viewport : viewport_size := mkViewport 1280 720.

Definition with_default {A} (d : A) (o : option A) : A :=
  match o with
  | Some a => a
  | None => d
  end.

(** The effect of a call that succeeds. *)
Definition effect (c : call) (w : world) : world :=
  match c with
  | chromium_launch headless =>
      mkWorld (log w) (Some (with_default default_headless headless))
              None "" (files w)
  | new_page =>
      mkWorld (log w) (running w) (Some default_viewport) "about:blank" (files w)
  | set_viewport_size size =>
      mkWorld (log w) (running w) (Some size) (page_url w) (files w)
  | goto url =>
      mkWorld (log w) (running w) (page_viewport w) url (files w)
  | screenshot path full_page =>
      match path with
      | Some p =>
          let shot :=
            mkCapture (page_url w)
                      (with_default default_viewport (page_viewport w))
                      (with_default default_full_page full_page)
                      (running w) in
          mkWorld (log w) (running w) (page_viewport w) (page_url w)
                  ((p, shot) :: files w)
      | None => w
      end
  | close =>
      mkWorld (log w) None None "" (files w)
  end.

(** Statements of the script: a state transformer that may raise. *)
Definition script (A : Type) : Type := world -> world * result A.

Definition ret {A} (a : A) : script A := fun w => (w, Ok a).

Definition seq {A B} (m : script A) (k : A -> script B) : script B :=
  fun w =>
    match m w with
    | (w', Ok a) => k a w'
    | (w', Raise e) => (w', Raise e)
    end.

Notation "m ;; k" := (seq m (fun _ => k)) (at level 61, right associativity).

Section Run.

(** The calls that fail in this run (target unreachable, navigation
    timeout, output path not writable, ...), with what they raise. *)
Variable raises : call -> option exc.

(** One call: it is logged, then fails or takes effect. *)
Definition perform (c : call) : script unit :=
  fun w =>
    let w := mkWorld (log w ++ [c]) (running w) (page_viewport w)
                     (page_url w) (files w) in
    match raises c with
    | Some e => (w, Raise e)
    | None => (effect c w, Ok tt)
    end.

(** [run(playwright)], lines 3-9. *)
Definition run : script unit :=
  perform (chromium_launch None) ;;
  perform new_page ;;
  perform (set_viewport_size (mkViewport 375 667)) ;;
  perform (goto "http://localhost:5173/") ;;
  perform (screenshot
             (Some (lit "jules-scratch/verification/compact_ui_verification.png"))
             None) ;;
  perform close.

End Run.

Definition target_url : str := "http://localhost:5173/".

Definition screenshot_path : str :=
  "jules-scratch/verification/compact_ui_verification.png".

(** The six calls of [run], in program order. *)
Definition script_calls : list call :=
  [ chromium_launch None;
    new_page;
    set_viewport_size (mkViewport 375 667);
    goto target_url;
    screenshot (Some screenshot_path) None;
    close ].

(** The image that a run without failure leaves at the output path. *)
Definition viewport_shot : capture :=
  mkCapture target_url (mkViewport 375 667) false (Some true).

(** The calls of a list that are made when a failing call ends the run:
    those up to and including the first one that fails. *)
Fixpoint attempted (raises : call -> option exc) (calls : list call) : list call :=
  match calls with
  | [] => []
  | c :: calls' =>
      c :: match raises c with
           | Some _ => []
           | None => attempted raises calls'
           end
  end.

(** What the first failing call of a list raises. *)
Fixpoint first_failure (raises : call -> option exc) (calls : list call)
  : option exc :=
  match calls with
  | [] => None
  | c :: calls' =>
      match raises c with
      | Some e => Some e
      | None => first_failure raises calls'
      end
  end.

(** A run in which no call fails. *)
Definition no_failure : call -> option exc := fun _ => None.

(** A run in which nothing listens at the target address: the navigation
    fails. *)
Definition unreachable_target (c : call) : option exc :=
  match c with
  | goto _ => Some (OtherException "net::ERR_CONNECTION_REFUSED")
  | _ => None
  end.

(** The file at [path], the latest one written there. *)
Fixpoint lookup (path : str) (fs : list (str * capture)) : option capture :=
  match fs with
  | [] => None
  | (p, c) :: fs' => if str_eqb p path then Some c else lookup path fs'
  end.

End VerifyCompactUI.

(** * Properties *)

(** ** Facts about [str] *)

Module PyFacts.

Lemma str_eqb_refl (a : str) : str_eqb a a = true.
Proof.
  induction a as [|x a IH]; simpl; [reflexivity|].
  rewrite Ascii.eqb_refl. exact IH.
Qed.

Lemma str_eqb_eq (a b : str) : str_eqb a b = true <-> a = b.
Proof.
  split.
  - revert b. induction a as [|x a IH]; intros [|y b] H; simpl in H;
      try discriminate; [reflexivity|].
    apply andb_true_iff in H. destruct H as [Hxy Hab].
    apply Ascii.eqb_eq in Hxy. apply IH in Hab. congruence.
  - intros ->. apply str_eqb_refl.
Qed.

Lemma str_eqb_neq (a b : str) : str_eqb a b = false <-> a <> b.
Proof.
  destruct (str_eqb a b) eqn:E.
  - apply str_eqb_eq in E. split; [discriminate | contradiction].
  - split; [|reflexivity]. intros _ H. apply str_eqb_eq in H. congruence.
Qed.

(** [endswith] holds exactly of the strings that are some text followed by
    the suffix. *)
Lemma endswith_iff (s suffix : str) :
  endswith s suffix = true <-> exists r, s = r ++ suffix.
Proof.
  unfold endswith. rewrite andb_true_iff, Nat.leb_le, str_eqb_eq. split.
  - intros [_ H]. exists (firstn (List.length s - List.length suffix) s).
    rewrite <- (firstn_skipn (List.length s - List.length suffix) s) at 1.
    rewrite H. reflexivity.
  - intros [r ->]. rewrite length_app. split; [lia|].
    replace (List.length r + List.length suffix - List.length suffix)%nat
      with (List.length r + 0)%nat by lia.
    rewrite skipn_app, Nat.add_0_r, skipn_all.
    replace (List.length r - List.length r)%nat with 0%nat by lia.
    reflexivity.
Qed.

Lemma endswith_app (r suffix : str) : endswith (r ++ suffix) suffix = true.
Proof. apply endswith_iff. exists r. reflexivity. Qed.

(** [r ++ e] does not end with [suffix] when no text before [suffix]
    gives the same string. *)
Lemma endswith_app_false (r e suffix : str) :
  (forall r', r ++ e <> r' ++ suffix) -> endswith (r ++ e) suffix = false.
Proof.
  intros H. destruct (endswith (r ++ e) suffix) eqn:E; [|reflexivity].
  apply endswith_iff in E. destruct E as [r' E]. elim (H r' E).
Qed.

(** Equal strings read the same backwards. *)
Lemma rev_eq (a b : str) : a = b -> rev a = rev b.
Proof. intros ->. reflexivity. Qed.

End PyFacts.

(** Proves that [r ++ e] does not end with [suffix], for literals [e] and
    [suffix] that differ in one of their last characters: read both
    backwards and compare. *)
Ltac ends_differently :=
  apply PyFacts.endswith_app_false; intros ? Habs;
  apply PyFacts.rev_eq in Habs; rewrite !rev_app_distr in Habs;
  cbn in Habs; congruence.

Example endswith_js_not_json (r : str) : endswith (r ++ lit ".js") ".json" = false.
Proof. ends_differently. Qed.

(** ** The content-type override *)

Module GuessTypeFacts.

Import PosixPath CustomHTTPRequestHandler PyFacts.

Lemma skip_leading_dots_split (p : str) (dotIndex filenameIndex : Z) (r : str * str) :
  skip_leading_dots p dotIndex filenameIndex = Some r ->
  r = (slice_to p dotIndex, slice_from p dotIndex).
Proof.
  funelim (skip_leading_dots p dotIndex filenameIndex); intros Hr.
  - destruct (str_eqb (char_at p filenameIndex) [extsep]).
    + match goal with IH : forall r, _ -> r = _ |- _ => apply IH end.
      exact Hr.
    + congruence.
  - discriminate.
Qed.

(** [splitext] cuts the path in two. *)
Lemma splitext_app (p : str) : p = fst (splitext p) ++ snd (splitext p).
Proof.
  unfold splitext.
  destruct (rfind extsep p >? rfind sep p); simpl; [|now rewrite app_nil_r].
  destruct (skip_leading_dots p (rfind extsep p) (rfind sep p + 1)) as [r|] eqn:E;
    simpl; [|now rewrite app_nil_r].
  apply skip_leading_dots_split in E. subst r. simpl.
  symmetry. apply firstn_skipn.
Qed.

(** A path ends with its extension. *)
Lemma endswith_extension (p : str) : endswith p (extension p) = true.
Proof.
  apply endswith_iff. exists (fst (splitext p)). apply splitext_app.
Qed.

(** The extensions with a documented type are the nine override
    suffixes. *)
Lemma documented_type_Some (ext ty : str) :
  documented_type ext = Some ty -> In ext override_suffixes.
Proof.
  unfold documented_type, override_suffixes.
  repeat match goal with
         | |- context [str_eqb ext ?l] =>
             destruct (str_eqb ext l) eqn:?E;
             [apply str_eqb_eq in E; subst ext; simpl; tauto|clear E]
         end.
  discriminate.
Qed.

Lemma documented_type_In (ext : str) :
  In ext override_suffixes -> exists ty, documented_type ext = Some ty.
Proof.
  unfold override_suffixes. simpl.
  intros H. repeat (destruct H as [<-|H]; [eexists; reflexivity|]).
  contradiction.
Qed.

Section Override.

Variable super_guess_type : str -> value.

(** When the inherited guesser answers with a pair, a path with an
    override extension gets the documented type, with the encoding of
    the inherited answer, whatever type the inherited answer names. *)
Lemma guess_type_override (path ext ty : str) (mimetype encoding : value) :
  extension path = ext ->
  documented_type ext = Some ty ->
  super_guess_type path = VTuple [mimetype; encoding] ->
  guess_type super_guess_type path = Ok (VTuple [VStr ty; encoding]).
Proof.
  intros Hext Hty Hsup. unfold guess_type. rewrite Hsup. simpl.
  rewrite (splitext_app path). fold (extension path). rewrite Hext.
  generalize (fst (splitext path)). intros r.
  pose proof (documented_type_Some _ Hty) as Hin.
  unfold override_suffixes in Hin. simpl in Hin.
  repeat (destruct Hin as [<-|Hin];
          [ repeat first
              [ rewrite (endswith_app r)
              | match goal with
                | |- context [endswith (r ++ ?e) ?s] =>
                    replace (endswith (r ++ e) s) with false
                      by (symmetry; ends_differently)
                end ];
            cbn in Hty |- *; congruence | ]).
  contradiction.
Qed.

(** The unpacking of line 21 raises [ValueError] on a [str] that is not
    two characters long, before any suffix is looked at. *)
Lemma guess_type_str_raises (path s : str) :
  super_guess_type path = VStr s ->
  List.length s <> 2%nat ->
  exists msg, guess_type super_guess_type path = Raise (ValueError msg).
Proof.
  intros Hsup Hlen. unfold guess_type. rewrite Hsup.
  destruct s as [|a [|b [|c s]]]; simpl in *; try (eexists; reflexivity).
  congruence.
Qed.

End Override.

End GuessTypeFacts.

Module GuessTypeClaims.

Import PosixPath CustomHTTPRequestHandler PyFacts GuessTypeFacts.

(** The inherited guesser answers with a [str], never with a tuple. *)
Lemma inherited_guess_type_is_str (mimetypes_guess_type : str -> option str)
      (path : str) :
  exists s, SimpleHTTPRequestHandler.guess_type mimetypes_guess_type path = VStr s
            /\ (s = lit "application/octet-stream"
                \/ In s (map snd SimpleHTTPRequestHandler.extensions_map)
                \/ mimetypes_guess_type path = Some s).
Proof.
  assert (Hget : forall k t,
             SimpleHTTPRequestHandler.get k SimpleHTTPRequestHandler.extensions_map
             = Some t ->
             In t (map snd SimpleHTTPRequestHandler.extensions_map)).
  { intros k t. unfold SimpleHTTPRequestHandler.extensions_map. simpl.
    repeat (destruct (str_eqb k _); [intros [= <-]; tauto|]). discriminate. }
  unfold SimpleHTTPRequestHandler.guess_type.
  destruct (SimpleHTTPRequestHandler.get (snd (splitext path)) _)
    as [t|] eqn:E1.
  { exists t. split; [reflexivity|]. right; left. eapply Hget, E1. }
  destruct (SimpleHTTPRequestHandler.get
              (map SimpleHTTPRequestHandler.lower_char (snd (splitext path))) _)
    as [t|] eqn:E2.
  { exists t. split; [reflexivity|]. right; left. eapply Hget, E2. }
  destruct (mimetypes_guess_type path) as [[|c g]|] eqn:E3;
    eexists; split; try reflexivity; auto.
Qed.

(** With the handler's own superclass, [guess_type] raises [ValueError] on
    every path, whatever its suffix, as long as the platform's type
    tables hold no type of exactly two characters (a type has the form
    type/subtype). *)
Lemma guess_type_raises_on_every_path
      (mimetypes_guess_type : str -> option str) (path : str) :
  (forall p t, mimetypes_guess_type p = Some t -> List.length t <> 2%nat) ->
  exists msg,
    guess_type (SimpleHTTPRequestHandler.guess_type mimetypes_guess_type) path
    = Raise (ValueError msg).
Proof.
  intros Htab.
  destruct (inherited_guess_type_is_str mimetypes_guess_type path)
    as [s [Hs Hor]].
  apply guess_type_str_raises with (s := s); [exact Hs|].
  destruct Hor as [->|[Hin|Hmt]].
  - cbn. lia.
  - unfold SimpleHTTPRequestHandler.extensions_map in Hin. simpl in Hin.
    repeat (destruct Hin as [<-|Hin]; [cbn; lia|]). contradiction.
  - eapply Htab. exact Hmt.
Qed.

(** C1 (the code departs from the claim).  For a path whose extension is
    in the override set, [guess_type] is to return the documented type
    whatever the inherited guesser returns.  On the path
    [/srv/www/app.tsx] the inherited guesser returns the string
    [application/octet-stream]; line 21 unpacks that string into two
    names, and the call raises [ValueError] instead of returning
    [application/javascript]. *)
Theorem guess_type_tsx_raises_ValueError :
  documented_type (extension "/srv/www/app.tsx") = Some (lit "application/javascript")
  /\ SimpleHTTPRequestHandler.guess_type SimpleHTTPRequestHandler.no_mimetypes "/srv/www/app.tsx"
     = VStr "application/octet-stream"
  /\ guess_type (SimpleHTTPRequestHandler.guess_type SimpleHTTPRequestHandler.no_mimetypes) "/srv/www/app.tsx"
     = Raise (ValueError "too many values to unpack (expected 2)").
Proof. repeat split; reflexivity. Qed.

(** C2 (the code departs from the claim).  For a path whose extension is
    outside the override set, [guess_type] is to return exactly what the
    inherited guesser returns.  The extension of [/srv/www/notes.txt] is
    [.txt], outside the set; the inherited guesser returns the string
    [application/octet-stream]; line 21 unpacks that string into two
    names, and the call raises [ValueError] instead of returning it.  This
    is the defect of C1. *)
Theorem guess_type_txt_raises_ValueError :
  extension "/srv/www/notes.txt" = lit ".txt"
  /\ ~ In (extension "/srv/www/notes.txt") override_suffixes
  /\ SimpleHTTPRequestHandler.guess_type SimpleHTTPRequestHandler.no_mimetypes
       "/srv/www/notes.txt"
     = VStr "application/octet-stream"
  /\ guess_type (SimpleHTTPRequestHandler.guess_type
                   SimpleHTTPRequestHandler.no_mimetypes) "/srv/www/notes.txt"
     = Raise (ValueError "too many values to unpack (expected 2)").
Proof.
  assert (E : extension "/srv/www/notes.txt" = lit ".txt") by reflexivity.
  split; [exact E|]. split.
  - rewrite E. unfold override_suffixes. cbn. intuition discriminate.
  - split; reflexivity.
Qed.

End GuessTypeClaims.

(** ** URL parsing of a request target with a query *)

Module UrlParseFacts.

Import UrlParse PyFacts.

Lemma contains_app (c : ascii) (a b : str) :
  contains c (a ++ b) = contains c a || contains c b.
Proof. unfold contains. apply existsb_app. Qed.

Lemma contains_false (c : ascii) (s : str) (f : ascii -> bool) :
  forallb f s = true ->
  (forall x, f x = true -> Ascii.eqb c x = false) ->
  contains c s = false.
Proof.
  intros Hall Hf. unfold contains.
  induction s as [|x s IH]; simpl in *; [reflexivity|].
  apply andb_true_iff in Hall. destruct Hall as [Hx Hs].
  rewrite (Hf x Hx), (IH Hs). reflexivity.
Qed.

(** Splitting at the first [c] leaves a prefix without [c] in place. *)
Lemma split_once_app (c : ascii) (a b : str) :
  contains c a = false ->
  split_once c (a ++ b)
  = (a ++ fst (split_once c b), snd (split_once c b)).
Proof.
  unfold contains. induction a as [|x a IH]; simpl; intros H.
  - destruct (split_once c b); reflexivity.
  - apply orb_false_iff in H. destruct H as [Hx Ha].
    rewrite Ascii.eqb_sym, Hx, (IH Ha). reflexivity.
Qed.

Lemma split_once_first (c : ascii) (a b : str) :
  contains c a = false -> split_once c (a ++ c :: b) = (a, b).
Proof.
  intros H. rewrite split_once_app by exact H. simpl.
  rewrite Ascii.eqb_refl. simpl. rewrite app_nil_r. reflexivity.
Qed.

Lemma filter_keep_all {A} (f : A -> bool) (l : list A) :
  forallb f l = true -> filter f l = l.
Proof.
  induction l as [|x l IH]; simpl; [reflexivity|].
  intros H. apply andb_true_iff in H. destruct H as [Hx Hl].
  rewrite Hx, (IH Hl). reflexivity.
Qed.

Lemma forallb_weaken {A} (f g : A -> bool) (l : list A) :
  (forall x, f x = true -> g x = true) ->
  forallb f l = true -> forallb g l = true.
Proof.
  intros Hfg. induction l as [|x l IH]; simpl; [reflexivity|].
  intros H. apply andb_true_iff in H. destruct H as [Hx Hl].
  rewrite (Hfg x Hx), (IH Hl). reflexivity.
Qed.

Section Parse.

Variable check_bracketed_netloc : str -> option exc.
Variable checknetloc : str -> option exc.

(** The path component of [p?q] is [p], for every plain [p] and every
    query text [q], also one with [#], [?], [:] or control
    characters. *)
Lemma urlparse_plain_query (p q : str) :
  plain_path p = true ->
  exists qy fr,
    urlparse check_bracketed_netloc checknetloc (p ++ "?"%char :: q)
    = Ok (mkParseResult [] [] p [] qy fr).
Proof.
  intros Hp. destruct p as [|c p']; [discriminate|].
  unfold plain_path in Hp.
  repeat (apply andb_true_iff in Hp; destruct Hp as [Hp ?]).
  repeat match goal with
         | H : negb _ = true |- _ => apply negb_true_iff in H
         end.
  set (p := c :: p') in *.
  assert (Hhash : contains "#"%char p = false).
  { eapply contains_false; [eassumption|]. intros x Hx.
    repeat (apply andb_true_iff in Hx; destruct Hx as [Hx ?]).
    rewrite Ascii.eqb_sym.
    repeat match goal with
           | H : negb _ = true |- _ => apply negb_true_iff in H
           end. assumption. }
  assert (Hqm : contains "?"%char p = false).
  { eapply contains_false; [eassumption|]. intros x Hx.
    repeat (apply andb_true_iff in Hx; destruct Hx as [Hx ?]).
    rewrite Ascii.eqb_sym.
    repeat match goal with
           | H : negb _ = true |- _ => apply negb_true_iff in H
           end. assumption. }
  assert (Hsemi : contains ";"%char p = false).
  { eapply contains_false; [eassumption|]. intros x Hx.
    repeat (apply andb_true_iff in Hx; destruct Hx as [Hx ?]).
    rewrite Ascii.eqb_sym.
    repeat match goal with
           | H : negb _ = true |- _ => apply negb_true_iff in H
           end. assumption. }
  assert (Hsafe : remove_unsafe_bytes p = p).
  { apply filter_keep_all. eapply forallb_weaken; [|eassumption].
    intros x Hx.
    repeat (apply andb_true_iff in Hx; destruct Hx as [Hx ?]).
    assumption. }
  unfold urlparse, urlsplit.
  assert (Hstrip : lstrip (p ++ "?"%char :: q) = p ++ "?"%char :: q).
  { subst p. simpl.
    match goal with H : is_c0_control_or_space c = false |- _ => rewrite H end.
    reflexivity. }
  rewrite Hstrip. unfold remove_unsafe_bytes at 1.
  rewrite filter_app. fold (remove_unsafe_bytes p). rewrite Hsafe.
  change (filter (fun c0 => negb (is_unsafe_byte c0)) ("?"%char :: q))
    with ("?"%char :: remove_unsafe_bytes q).
  set (q' := remove_unsafe_bytes q).
  assert (Hscheme : split_scheme (p ++ "?"%char :: q') = ([], p ++ "?"%char :: q')).
  { unfold split_scheme. subst p. simpl app. cbn iota.
    match goal with H : is_ascii_alpha c = false |- _ => rewrite H end.
    rewrite andb_false_r. reflexivity. }
  rewrite Hscheme.
  assert (Hslash : str_eqb (firstn 2 (p ++ "?"%char :: q')) "//" = false).
  { subst p. destruct p' as [|d p'']; simpl.
    - rewrite andb_false_r. reflexivity.
    - match goal with H : str_eqb (firstn 2 _) _ = false |- _ => exact H end. }
  rewrite Hslash. cbn [bind].
  assert (Hquery : forall q1 : str,
             (if contains "?"%char (p ++ "?"%char :: q1)
              then split_once "?"%char (p ++ "?"%char :: q1)
              else (p ++ "?"%char :: q1, [])) = (p, q1)).
  { intros q1. rewrite contains_app, Hqm. cbn [contains existsb orb].
    rewrite Ascii.eqb_refl. cbn [orb].
    rewrite split_once_first by exact Hqm. reflexivity. }
  clearbody p.
  destruct (contains "#"%char (p ++ "?"%char :: q')).
  - rewrite split_once_app by exact Hhash. cbn [split_once].
    change (Ascii.eqb "?"%char "#"%char) with false. cbn iota.
    destruct (split_once "#"%char q') as [b a]. cbn [fst snd].
    rewrite Hquery. cbn -[contains]. rewrite Hsemi. exists b, a. reflexivity.
  - rewrite Hquery. cbn -[contains]. rewrite Hsemi. exists q', []. reflexivity.
Qed.

End Parse.

End UrlParseFacts.

(** ** The routing rules of [do_GET] *)

Module HandlerClaims.

Import UrlParse Handler PyFacts UrlParseFacts.

Section Routing.

Variable check_bracketed_netloc : str -> option exc.
Variable checknetloc : str -> option exc.
Variable filesystem : Type.
Variable super_guess_type : str -> value.
Variable SimpleHTTPRequestHandler_do_GET :
  (str -> result value) -> filesystem -> str -> result (list wire).
Variable version_string : str.
Variable date_time_string : str.

Local Notation urlparse :=
  (UrlParse.urlparse check_bracketed_netloc checknetloc).
Local Notation do_GET :=
  (Handler.do_GET check_bracketed_netloc checknetloc).
Local Notation serve_GET :=
  (Handler.serve_GET check_bracketed_netloc checknetloc
                     super_guess_type SimpleHTTPRequestHandler_do_GET
                     version_string date_time_string).

(** C3.  For every GET request whose parsed path is exactly [/], the
    handler sends status 302 with the header
    [Location: /index-standalone.html] and ends the headers; it makes
    no call to the inherited [do_GET], and what it sends is the same for
    every content of the served directory. *)
Theorem do_GET_root_redirects (fs : filesystem) (self_path : str)
        (parsed_path : ParseResult) :
  urlparse self_path = Ok parsed_path ->
  path parsed_path = lit "/" ->
  do_GET self_path = Ok redirect_calls
  /\ ~ In super_do_GET redirect_calls
  /\ serve_GET fs self_path
     = Ok (redirect_wire version_string date_time_string).
Proof.
  intros Hparse Hpath.
  assert (Hcalls : do_GET self_path = Ok redirect_calls).
  { unfold Handler.do_GET. rewrite Hparse.
    cbn [bind]. rewrite Hpath. reflexivity. }
  split; [exact Hcalls|]. split.
  - unfold redirect_calls. simpl. intros [H|[H|[H|[]]]]; discriminate H.
  - unfold Handler.serve_GET. rewrite Hcalls. reflexivity.
Qed.

(** C4.  For every GET request whose parsed path is exactly
    [/favicon.ico], the handler sends status 404 and ends the headers;
    it makes no call to the inherited [do_GET], so what it sends does
    not depend on the served directory, with or without a file
    [favicon.ico] in it. *)
Theorem do_GET_favicon_not_found (self_path : str)
        (parsed_path : ParseResult) :
  urlparse self_path = Ok parsed_path ->
  path parsed_path = lit "/favicon.ico" ->
  do_GET self_path = Ok not_found_calls
  /\ ~ In super_do_GET not_found_calls
  /\ (forall fs : filesystem,
        serve_GET fs self_path
        = Ok (not_found_wire version_string date_time_string)).
Proof.
  intros Hparse Hpath.
  assert (Hcalls : do_GET self_path = Ok not_found_calls).
  { unfold Handler.do_GET. rewrite Hparse.
    cbn [bind]. rewrite Hpath. reflexivity. }
  split; [exact Hcalls|]. split.
  - unfold not_found_calls. simpl. intros [H|[H|[]]]; discriminate H.
  - intros fs. unfold Handler.serve_GET. rewrite Hcalls. reflexivity.
Qed.

(** The calls that [do_GET] makes for a plain path followed by a
    query are those of the special case of the path. *)
Lemma do_GET_plain_query (p q : str) (calls : list call) :
  plain_path p = true ->
  (if str_eqb p "/" then Ok redirect_calls
   else if str_eqb p "/favicon.ico" then Ok not_found_calls
   else Ok [ super_do_GET ]) = Ok calls ->
  do_GET (p ++ lit "?" ++ q) = Ok calls.
Proof.
  intros Hp Hcalls.
  destruct (urlparse_plain_query check_bracketed_netloc checknetloc p q Hp)
    as [qy [fr Hq]].
  unfold Handler.do_GET. cbn [lit list_ascii_of_string app].
  rewrite Hq. cbn [bind path]. exact Hcalls.
Qed.

(** C9.  A query string does not change the routing: for every query
    text [q], a GET of [/?q] makes the calls of a GET of [/] and
    receives the same 302 redirect, and a GET of [/favicon.ico?q] makes
    the calls of a GET of [/favicon.ico] and receives the same 404. *)
Theorem do_GET_ignores_query (fs : filesystem) (q : str) :
  (do_GET (lit "/" ++ lit "?" ++ q) = do_GET "/"
   /\ serve_GET fs (lit "/" ++ lit "?" ++ q) = serve_GET fs "/"
   /\ serve_GET fs "/" = Ok (redirect_wire version_string date_time_string))
  /\
  (do_GET (lit "/favicon.ico" ++ lit "?" ++ q) = do_GET "/favicon.ico"
   /\ serve_GET fs (lit "/favicon.ico" ++ lit "?" ++ q)
      = serve_GET fs "/favicon.ico"
   /\ serve_GET fs "/favicon.ico"
      = Ok (not_found_wire version_string date_time_string)).
Proof.
  assert (Hroot : do_GET "/" = Ok redirect_calls) by reflexivity.
  assert (Hicon : do_GET "/favicon.ico" = Ok not_found_calls) by reflexivity.
  assert (Hrootq : do_GET (lit "/" ++ lit "?" ++ q) = Ok redirect_calls)
    by (apply do_GET_plain_query; reflexivity).
  assert (Hiconq : do_GET (lit "/favicon.ico" ++ lit "?" ++ q)
                   = Ok not_found_calls)
    by (apply do_GET_plain_query; reflexivity).
  unfold Handler.serve_GET.
  rewrite Hroot, Hicon, Hrootq, Hiconq.
  repeat split; reflexivity.
Qed.

(** The method that a command resolves to. *)
Lemma resolve_do (command : str) :
  resolve (lit "do_" ++ command)
  = if str_eqb command "GET" then Some CustomHTTPRequestHandler_class
    else if str_eqb command "HEAD" then Some SimpleHTTPRequestHandler_class
    else None.
Proof.
  unfold resolve, mro. cbn -[str_eqb].
  change (str_eqb ("d" :: "o" :: "_" :: command)%char
                  ("d" :: "o" :: "_" :: lit "GET")%char)
    with (str_eqb command "GET").
  change (str_eqb ("d" :: "o" :: "_" :: command)%char
                  ("d" :: "o" :: "_" :: lit "HEAD")%char)
    with (str_eqb command "HEAD").
  cbn.
  destruct (str_eqb command _); [reflexivity|].
  destruct (str_eqb command _); reflexivity.
Qed.

End Routing.

Lemma do_GET_root_redirects_witness :
  serve_GET no_check no_check octet_stream plain_ok "SimpleHTTP/0.6" "now" tt "/"
  = Ok (redirect_wire "SimpleHTTP/0.6" "now").
Proof.
  refine (proj2 (proj2 (@do_GET_root_redirects
           no_check no_check unit octet_stream plain_ok "SimpleHTTP/0.6" "now" tt "/"
           (mkParseResult [] [] "/" [] [] []) _ _))); reflexivity.
Defined.

Lemma do_GET_favicon_not_found_witness :
  serve_GET no_check no_check octet_stream plain_ok "SimpleHTTP/0.6" "now" tt
            "/favicon.ico"
  = Ok (not_found_wire "SimpleHTTP/0.6" "now").
Proof.
  refine (proj2 (proj2 (@do_GET_favicon_not_found
           no_check no_check unit octet_stream plain_ok "SimpleHTTP/0.6" "now"
           "/favicon.ico"
           (mkParseResult [] [] "/favicon.ico" [] [] []) _ _)) tt);
    reflexivity.
Defined.

End HandlerClaims.

(** ** Port selection *)

Module FindFreePortFacts.

Import Server.

Section Loop.

Variable probe : Z -> option exc.

Lemma ports_nil (lo hi : Z) : hi <= lo -> ports lo hi = [].
Proof.
  intros H. unfold ports.
  replace (Z.to_nat (hi - lo)) with 0%nat by lia. reflexivity.
Qed.

Lemma ports_cons (lo hi : Z) : lo < hi -> ports lo hi = lo :: ports (lo + 1) hi.
Proof.
  intros H. unfold ports.
  replace (Z.to_nat (hi - lo)) with (S (Z.to_nat (hi - (lo + 1)))) by lia.
  simpl. f_equal; [lia|].
  rewrite <- seq_shift, map_map. apply map_ext. intros i. lia.
Qed.

Lemma in_ports (lo hi q : Z) : In q (ports lo hi) <-> lo <= q < hi.
Proof.
  unfold ports. rewrite in_map_iff. split.
  - intros [i [<- Hi]]. apply in_seq in Hi. lia.
  - intros H. exists (Z.to_nat (q - lo)). split; [lia|].
    apply in_seq. lia.
Qed.

(** The loop invariant, read off at the end of the loop. *)
Lemma find_free_port_loop_post (start_port port : Z) :
  loop_post probe start_port port (find_free_port_loop probe start_port port).
Proof.
  funelim (find_free_port_loop probe start_port port).
  - (* the window is used up *)
    unfold loop_post. split.
    + intros q Hq. lia.
    + rewrite ports_nil by lia. reflexivity.
  - (* the probe succeeds *)
    unfold loop_post, bind_succeeded.
    split; [lia|]. split; [assumption|]. split.
    + intros q Hq. lia.
    + rewrite ports_cons, ports_nil by lia. reflexivity.
  - (* the probe raises an [OSError]: next port *)
    destruct (find_free_port_loop probe start_port (port + 1)) as [probed o].
    assert (Hfail : forall (hi q : Z),
               (forall q, port + 1 <= q < hi -> bind_failed probe q) ->
               port <= q < hi -> bind_failed probe q).
    { intros hi q Hhi Hq. destruct (Z.eq_dec q port) as [->|Hne].
      - exists e. split; assumption.
      - apply Hhi. lia. }
    unfold loop_post in *. destruct o as [p| |e'].
    + destruct H as (Hp & Hok & Hbefore & Hprobed).
      split; [lia|]. split; [assumption|]. split.
      * intros q Hq. apply (Hfail p q); assumption.
      * rewrite (@ports_cons port) by lia. congruence.
    + destruct H as (Hall & Hprobed). split.
      * intros q Hq. apply (Hfail (start_port + 100) q); assumption.
      * rewrite (@ports_cons port) by lia. congruence.
    + destruct H as (p & Hp & Hraise & Hnot & Hbefore & Hprobed).
      exists p. split; [lia|]. split; [assumption|].
      split; [assumption|]. split.
      * intros q Hq. apply (Hfail p q); assumption.
      * rewrite (@ports_cons port) by lia. congruence.
  - (* the probe raises something else *)
    unfold loop_post. exists port.
    split; [lia|]. split; [assumption|]. split; [assumption|]. split.
    + intros q Hq. lia.
    + rewrite ports_cons, ports_nil by lia. reflexivity.
Qed.

End Loop.

End FindFreePortFacts.

Module FindFreePortClaims.

Import Server FindFreePortFacts.

(** A probe cannot both succeed and fail. *)
Lemma bind_failed_not_succeeded (probe : Z -> option exc) (port : Z) :
  bind_failed probe port -> ~ bind_succeeded probe port.
Proof.
  intros [e [He _]] Hok. unfold bind_succeeded in Hok. congruence.
Qed.

(** C5.  When [find_free_port] returns a port [p] for the starting port
    [s], then [s <= p] (and [p] is within the window of 100 ports), the
    probe of [p] succeeded, and every port [q] with [s <= q < p] was
    probed and its bind failed; the ports probed are exactly [s], ...,
    [p], so [p] is the first port at or above [s] that could be bound,
    and no port whose probe failed is returned. *)
Theorem find_free_port_returns_first_free
        (probe : Z -> option exc) (s p : Z) (probed : list Z) :
  find_free_port probe s = (probed, Returned p) ->
  s <= p < s + 100
  /\ bind_succeeded probe p
  /\ ~ bind_failed probe p
  /\ (forall q, s <= q < p -> In q probed /\ bind_failed probe q)
  /\ probed = ports s (p + 1).
Proof.
  intros Hrun. pose proof (find_free_port_loop_post probe s s) as Hpost.
  unfold find_free_port in Hrun. rewrite Hrun in Hpost.
  destruct Hpost as (Hp & Hok & Hbefore & Hprobed).
  split; [exact Hp|]. split; [exact Hok|]. split.
  - intros Hfail. exact (bind_failed_not_succeeded Hfail Hok).
  - split; [|exact Hprobed].
    intros q Hq. split; [|apply Hbefore; exact Hq].
    rewrite Hprobed. apply in_ports. lia.
Qed.



(** A probe that raises anything but an [OSError] ends the search with
    that exception, not with the exhaustion error. *)
Lemma find_free_port_propagates (probe : Z -> option exc) (s : Z) (e : exc) :
  probe s = Some e -> is_OSError e = false ->
  find_free_port probe s = ([s], Propagated e).
Proof.
  intros He Hnot. unfold find_free_port. simp find_free_port_loop.
  destruct (Z_lt_dec s (s + 100)) as [Hlt|Hge]; [|lia].
  cbn. rewrite He. cbn. rewrite Hnot. reflexivity.
Qed.

Lemma find_free_port_returns_first_free_witness :
  8080 <= 8082 < 8080 + 100
  /\ bind_succeeded two_taken 8082
  /\ ~ bind_failed two_taken 8082
  /\ (forall q, 8080 <= q < 8082 ->
      In q [8080; 8081; 8082] /\ bind_failed two_taken q)
  /\ [8080; 8081; 8082] = ports 8080 (8082 + 1).
Proof.
  apply (@find_free_port_returns_first_free two_taken 8080 8082
           [8080; 8081; 8082]).
  reflexivity.
Defined.

End FindFreePortClaims.

(** ** The entry point *)

Module MainClaims.

Import Server FindFreePortFacts.





End MainClaims.

(** ** The screenshot script *)

Module VerifyCompactUIClaims.

Import VerifyCompactUI PyFacts.

(** C8, as stated, fails: the script does not ask for a full-page
    screenshot.  In the run without failure the screenshot call carries
    no [full_page] argument, and the image written shows the viewport
    only. *)
Lemma run_screenshot_is_not_full_page :
  snd (run no_failure initial) = Ok tt
  /\ ~ In (screenshot (Some screenshot_path) (Some true))
         (log (fst (run no_failure initial)))
  /\ exists shot,
       lookup screenshot_path (files (fst (run no_failure initial))) = Some shot
       /\ shot_full_page shot = false.
Proof.
  split; [reflexivity|]. split.
  - cbn. intros H.
    repeat (destruct H as [H|H]; [discriminate H|]). exact H.
  - exists viewport_shot. split; reflexivity.
Qed.

(** C8 (amended).  When none of its calls fails, the script makes exactly
    the six calls in program order: launch a browser (headless, by the
    default of the library), open a new page, set the viewport to
    375 by 667, navigate to [http://localhost:5173/], capture a
    screenshot of the visible viewport of that page to the fixed output
    path, and close the browser. *)
Theorem run_linear_sequence (raises : call -> option exc) :
  (forall c, In c script_calls -> raises c = None) ->
  snd (run raises initial) = Ok tt
  /\ log (fst (run raises initial)) = script_calls
  /\ files (fst (run raises initial)) = [ (screenshot_path, viewport_shot) ]
  /\ running (fst (run raises initial)) = None.
Proof.
  intros Hnone.
  unfold run, seq, perform.
  cbn [initial log running page_viewport page_url files app].
  unfold script_calls, target_url, screenshot_path in Hnone.
  repeat match goal with
         | |- context [raises ?c] =>
             rewrite (Hnone c) by (simpl; tauto); cbn
         end.
  repeat split; reflexivity.
Qed.

Lemma run_linear_sequence_witness :
  snd (run no_failure initial) = Ok tt
  /\ log (fst (run no_failure initial)) = script_calls
  /\ files (fst (run no_failure initial)) = [ (screenshot_path, viewport_shot) ]
  /\ running (fst (run no_failure initial)) = None.
Proof.
  apply (@run_linear_sequence no_failure). intros c _. reflexivity.
Defined.

End VerifyCompactUIClaims.

(** * Further properties *)

(** ** [guess_type] *)

Module GuessTypeExtras.

Import PosixPath CustomHTTPRequestHandler PyFacts GuessTypeFacts.

(** With the superclass of the handler, the call raises on every path. *)
Lemma guess_type_raises_on_every_path_witness :
  exists msg,
    guess_type (SimpleHTTPRequestHandler.guess_type
                  SimpleHTTPRequestHandler.no_mimetypes)
               "/srv/www/index-standalone.html"
    = Raise (ValueError msg).
Proof.
  apply (@GuessTypeClaims.guess_type_raises_on_every_path
           SimpleHTTPRequestHandler.no_mimetypes
           "/srv/www/index-standalone.html").
  intros p t H. discriminate H.
Defined.

End GuessTypeExtras.

(** ** URL parsing of the other forms of a request target *)

Module UrlParseExtras.

Import UrlParse PyFacts UrlParseFacts.

Lemma forallb_negb_contains (c : ascii) (s : str) (f : ascii -> bool) :
  forallb f s = true ->
  (forall x, f x = true -> Ascii.eqb x c = false) ->
  contains c s = false.
Proof.
  intros Hall Hf. eapply contains_false; [exact Hall|].
  intros x Hx. rewrite Ascii.eqb_sym. apply Hf, Hx.
Qed.

Lemma find_from_absent (c : ascii) (s : str) (i : Z) :
  contains c s = false -> find_from c s i = -1.
Proof.
  unfold contains. revert i. induction s as [|x s IH]; intros i H; simpl in *.
  - reflexivity.
  - apply orb_false_iff in H. destruct H as [Hx Hs].
    rewrite Ascii.eqb_sym, Hx. apply IH, Hs.
Qed.

Lemma find_from_first (c : ascii) (a b : str) (i : Z) :
  contains c a = false ->
  find_from c (a ++ c :: b) i = i + Z.of_nat (List.length a).
Proof.
  unfold contains. revert i. induction a as [|x a IH]; intros i H; simpl in *.
  - rewrite Ascii.eqb_refl. lia.
  - apply orb_false_iff in H. destruct H as [Hx Ha].
    rewrite Ascii.eqb_sym, Hx, (IH (i + 1) Ha). lia.
Qed.

Lemma rfind_from_absent (c : ascii) (s : str) (i last : Z) :
  contains c s = false -> rfind_from c s i last = last.
Proof.
  unfold contains. revert i last.
  induction s as [|x s IH]; intros i last H; simpl in *.
  - reflexivity.
  - apply orb_false_iff in H. destruct H as [Hx Hs].
    rewrite Ascii.eqb_sym, Hx. apply IH, Hs.
Qed.

(** What the conjuncts of [plain_path] say. *)
Lemma plain_path_inv (p : str) :
  plain_path p = true ->
  exists c p',
    p = c :: p'
    /\ is_c0_control_or_space c = false
    /\ is_ascii_alpha c = false
    /\ str_eqb (firstn 2 p) "//" = false
    /\ remove_unsafe_bytes p = p
    /\ contains "#"%char p = false
    /\ contains "?"%char p = false
    /\ contains ";"%char p = false.
Proof.
  intros Hp. destruct p as [|c p']; [discriminate|]. exists c, p'.
  unfold plain_path in Hp.
  repeat (apply andb_true_iff in Hp; destruct Hp as [Hp ?]).
  repeat match goal with
         | H : negb _ = true |- _ => apply negb_true_iff in H
         end.
  assert (Hsplit : forall x,
             negb (is_unsafe_byte x) && negb (Ascii.eqb x "#"%char)
             && negb (Ascii.eqb x "?"%char) && negb (Ascii.eqb x ";"%char) = true ->
             is_unsafe_byte x = false /\ Ascii.eqb x "#"%char = false
             /\ Ascii.eqb x "?"%char = false /\ Ascii.eqb x ";"%char = false).
  { intros x Hx.
    repeat (apply andb_true_iff in Hx; destruct Hx as [Hx ?]).
    repeat match goal with
           | H : negb _ = true |- _ => apply negb_true_iff in H
           end. auto. }
  repeat split; try assumption.
  - apply filter_keep_all. eapply forallb_weaken; [|eassumption].
    intros x Hx. apply Hsplit in Hx. apply negb_true_iff. tauto.
  - eapply forallb_negb_contains; [eassumption|].
    intros x Hx. apply Hsplit in Hx. tauto.
  - eapply forallb_negb_contains; [eassumption|].
    intros x Hx. apply Hsplit in Hx. tauto.
  - eapply forallb_negb_contains; [eassumption|].
    intros x Hx. apply Hsplit in Hx. tauto.
Qed.

Lemma free_of_delimiters_inv (x : str) :
  free_of_delimiters x = true ->
  remove_unsafe_bytes x = x
  /\ contains "#"%char x = false
  /\ contains "?"%char x = false
  /\ contains "/"%char x = false.
Proof.
  intros Hx. unfold free_of_delimiters in Hx.
  assert (Hsplit : forall c,
             negb (is_unsafe_byte c) && negb (Ascii.eqb c "#"%char)
             && negb (Ascii.eqb c "?"%char) && negb (Ascii.eqb c "/"%char) = true ->
             is_unsafe_byte c = false /\ Ascii.eqb c "#"%char = false
             /\ Ascii.eqb c "?"%char = false /\ Ascii.eqb c "/"%char = false).
  { intros c Hc.
    repeat (apply andb_true_iff in Hc; destruct Hc as [Hc ?]).
    repeat match goal with
           | H : negb _ = true |- _ => apply negb_true_iff in H
           end. auto. }
  repeat split.
  - apply filter_keep_all. eapply forallb_weaken; [|exact Hx].
    intros c Hc. apply Hsplit in Hc. apply negb_true_iff. tauto.
  - eapply forallb_negb_contains; [exact Hx|].
    intros c Hc. apply Hsplit in Hc. tauto.
  - eapply forallb_negb_contains; [exact Hx|].
    intros c Hc. apply Hsplit in Hc. tauto.
  - eapply forallb_negb_contains; [exact Hx|].
    intros c Hc. apply Hsplit in Hc. tauto.
Qed.

Section Parse.

Variable check_bracketed_netloc : str -> option exc.
Variable checknetloc : str -> option exc.

(** The steps of [urlsplit] up to the network location leave a plain path
    and what follows it in place, when what follows starts with a
    character other than a slash that is not removed. *)
Lemma urlsplit_plain_front (p t : str) :
  plain_path p = true ->
  (t = [] \/ exists d t', t = d :: t' /\ is_unsafe_byte d = false
                          /\ Ascii.eqb d "/"%char = false) ->
  urlsplit check_bracketed_netloc checknetloc (p ++ t)
  = (let url := p ++ remove_unsafe_bytes t in
     let '(url, fragment) :=
       if contains "#"%char url then split_once "#"%char url else (url, []) in
     let '(url, query) :=
       if contains "?"%char url then split_once "?"%char url else (url, []) in
     Ok ([], [], url, query, fragment)).
Proof.
  intros Hp Ht.
  destruct (plain_path_inv p Hp)
    as (c & p' & -> & Hc0 & Halpha & Hslash & Hsafe & _).
  unfold urlsplit.
  assert (Hstrip : lstrip ((c :: p') ++ t) = (c :: p') ++ t).
  { simpl. rewrite Hc0. reflexivity. }
  rewrite Hstrip. unfold remove_unsafe_bytes at 1.
  rewrite filter_app. fold (remove_unsafe_bytes (c :: p')). rewrite Hsafe.
  fold (remove_unsafe_bytes t).
  set (t1 := remove_unsafe_bytes t).
  assert (Hscheme : split_scheme ((c :: p') ++ t1) = ([], (c :: p') ++ t1)).
  { unfold split_scheme. simpl app. cbn iota.
    rewrite Halpha, andb_false_r. reflexivity. }
  rewrite Hscheme.
  assert (Htwo : str_eqb (firstn 2 ((c :: p') ++ t1)) "//" = false).
  { destruct p' as [|d p'']; [|exact Hslash].
    subst t1. destruct Ht as [->|(d & t' & -> & Hd & Hne)].
    - simpl. apply andb_false_r.
    - unfold remove_unsafe_bytes. simpl filter. rewrite Hd. simpl.
      rewrite Hne. rewrite andb_false_r. reflexivity. }
  rewrite Htwo. cbn [bind]. cbv zeta.
  destruct (contains "#"%char ((c :: p') ++ t1));
    [destruct (split_once "#"%char ((c :: p') ++ t1)) as [url fragment]|];
    cbn iota;
    match goal with
    | |- context [contains "?"%char ?u] =>
        destruct (contains "?"%char u);
        [destruct (split_once "?"%char u) as [url' query]|]
    end; reflexivity.
Qed.

(** A plain path alone. *)
Lemma urlparse_plain (p : str) :
  plain_path p = true ->
  urlparse check_bracketed_netloc checknetloc p
  = Ok (mkParseResult [] [] p [] [] []).
Proof.
  intros Hp. unfold urlparse.
  rewrite <- (app_nil_r p) at 1.
  rewrite (urlsplit_plain_front p (t := []) Hp) by (left; reflexivity).
  destruct (plain_path_inv p Hp) as (c & p' & E & _ & _ & _ & _ & Hh & Hq & Hs).
  change (remove_unsafe_bytes []) with (@nil ascii). rewrite app_nil_r.
  cbv zeta. rewrite Hh, Hq. cbn -[contains]. rewrite Hs. reflexivity.
Qed.

(** A plain path with a fragment. *)
Lemma urlparse_plain_fragment (p f : str) :
  plain_path p = true ->
  urlparse check_bracketed_netloc checknetloc (p ++ "#"%char :: f)
  = Ok (mkParseResult [] [] p [] [] (remove_unsafe_bytes f)).
Proof.
  intros Hp. unfold urlparse.
  rewrite (urlsplit_plain_front p (t := "#"%char :: f) Hp)
    by (right; exists "#"%char, f; repeat split; reflexivity).
  destruct (plain_path_inv p Hp) as (c & p' & E & _ & _ & _ & _ & Hh & Hq & Hs).
  change (remove_unsafe_bytes ("#"%char :: f))
    with ("#"%char :: remove_unsafe_bytes f).
  cbv zeta. rewrite contains_app, Hh. cbn [contains existsb orb].
  rewrite Ascii.eqb_refl. cbn [orb].
  rewrite split_once_first by exact Hh.
  rewrite Hq. cbn -[contains]. rewrite Hs. reflexivity.
Qed.

(** A path of one segment with a parameter. *)
Lemma urlparse_plain_params (p' x : str) :
  plain_path ("/"%char :: p') = true ->
  contains "/"%char p' = false ->
  free_of_delimiters x = true ->
  urlparse check_bracketed_netloc checknetloc (("/"%char :: p') ++ ";"%char :: x)
  = Ok (mkParseResult [] [] ("/"%char :: p') x [] []).
Proof.
  intros Hp Hseg Hx. unfold urlparse.
  rewrite (urlsplit_plain_front _ (t := ";"%char :: x) Hp)
    by (right; exists ";"%char, x; repeat split; reflexivity).
  destruct (plain_path_inv _ Hp) as (c & p0 & E & _ & _ & _ & _ & Hh & Hq & Hs).
  destruct (free_of_delimiters_inv x Hx) as (Hxs & Hxh & Hxq & Hxsl).
  change (remove_unsafe_bytes (";"%char :: x))
    with (";"%char :: remove_unsafe_bytes x).
  rewrite Hxs. set (p := "/"%char :: p') in *.
  assert (Hnoh : contains "#"%char (p ++ ";"%char :: x) = false).
  { rewrite contains_app, Hh. cbn [contains existsb orb].
    change (Ascii.eqb "#"%char ";"%char) with false. cbn [orb]. exact Hxh. }
  assert (Hnoq : contains "?"%char (p ++ ";"%char :: x) = false).
  { rewrite contains_app, Hq. cbn [contains existsb orb].
    change (Ascii.eqb "?"%char ";"%char) with false. cbn [orb]. exact Hxq. }
  cbv zeta. rewrite Hnoh, Hnoq. cbn [bind].
  assert (Hsemi : contains ";"%char (p ++ ";"%char :: x) = true).
  { rewrite contains_app. cbn [contains existsb].
    rewrite Ascii.eqb_refl, orb_true_r. reflexivity. }
  change (existsb (str_eqb []) uses_params) with true. cbn [andb].
  rewrite Hsemi.
  assert (Hparams : splitparams (p ++ ";"%char :: x) = (p, x)).
  { unfold splitparams.
    assert (Hsl : contains "/"%char (p ++ ";"%char :: x) = true) by reflexivity.
    rewrite Hsl.
    assert (Hr : rfind "/"%char (p ++ ";"%char :: x) = 0).
    { unfold rfind. subst p. cbn [app rfind_from].
      change (Ascii.eqb "/"%char "/"%char) with true. cbn iota.
      apply rfind_from_absent. rewrite contains_app, Hseg.
      cbn [contains existsb orb].
      change (Ascii.eqb "/"%char ";"%char) with false. cbn [orb]. exact Hxsl. }
    rewrite Hr. change (slice_from (p ++ ";"%char :: x) 0) with (p ++ ";"%char :: x).
    rewrite find_from_first by exact Hs.
    replace (0 + Z.of_nat (List.length p) <? 0) with false
      by (symmetry; apply Z.ltb_ge; lia).
    unfold slice_to, slice_from.
    replace (Z.to_nat (0 + Z.of_nat (List.length p))) with (List.length p) by lia.
    replace (Z.to_nat (0 + Z.of_nat (List.length p) + 1))
      with (List.length p + 1)%nat by lia.
    rewrite firstn_app, firstn_all, Nat.sub_diag. cbn [firstn].
    rewrite app_nil_r.
    rewrite skipn_app, skipn_all2 by lia.
    replace (List.length p + 1 - List.length p)%nat with 1%nat by lia.
    reflexivity. }
  rewrite Hparams. reflexivity.
Qed.

(** An absolute URI whose network location opens a bracket without closing
    it. *)
Lemma urlparse_unbalanced_bracket (n : str) :
  free_of_delimiters n = true ->
  contains "["%char n = true ->
  contains "]"%char n = false ->
  urlparse check_bracketed_netloc checknetloc (lit "http://" ++ n)
  = Raise (ValueError "Invalid IPv6 URL").
Proof.
  intros Hn Hopen Hclose.
  destruct (free_of_delimiters_inv n Hn) as (Hns & Hnh & Hnq & Hnsl).
  unfold urlparse, urlsplit.
  change (lstrip (lit "http://" ++ n)) with (lit "http://" ++ n).
  change (remove_unsafe_bytes (lit "http://" ++ n))
    with (lit "http://" ++ remove_unsafe_bytes n).
  rewrite Hns.
  change (split_scheme (lit "http://" ++ n))
    with (lit "http", "/"%char :: "/"%char :: n).
  change (str_eqb (firstn 2 ("/"%char :: "/"%char :: n)) "//") with true.
  cbn iota.
  assert (Hloc : splitnetloc ("/"%char :: "/"%char :: n) = (n, [])).
  { unfold splitnetloc.
    change (slice_from ("/"%char :: "/"%char :: n) 2) with n.
    cbn [fold_left].
    rewrite !find_from_absent by assumption.
    change (-1 >=? 0) with false. cbn iota.
    unfold slice_to, slice_from.
    replace (Z.to_nat (Z.of_nat (List.length ("/"%char :: "/"%char :: n)) - 2))
      with (List.length n) by (cbn [List.length]; lia).
    rewrite firstn_all.
    replace (Z.to_nat (Z.of_nat (List.length ("/"%char :: "/"%char :: n))))
      with (List.length ("/"%char :: "/"%char :: n)) by lia.
    rewrite skipn_all. reflexivity. }
  rewrite Hloc, Hopen, Hclose. reflexivity.
Qed.

End Parse.

End UrlParseExtras.

(** ** [do_GET] on the other request targets *)

Module DoGetExtras.

Import UrlParse Handler PyFacts UrlParseFacts UrlParseExtras.

Section Routing.

Variable check_bracketed_netloc : str -> option exc.
Variable checknetloc : str -> option exc.
Variable filesystem : Type.
Variable super_guess_type : str -> value.
Variable SimpleHTTPRequestHandler_do_GET :
  (str -> result value) -> filesystem -> str -> result (list wire).
Variable version_string : str.
Variable date_time_string : str.

Local Notation do_GET :=
  (Handler.do_GET check_bracketed_netloc checknetloc).
Local Notation serve_GET :=
  (Handler.serve_GET check_bracketed_netloc checknetloc
                     super_guess_type SimpleHTTPRequestHandler_do_GET
                     version_string date_time_string).

(** The inherited [do_GET] returns what it is asked to send followed by
    nothing, or raises. *)
Lemma perform_all_super (fs : filesystem) (self_path : str) :
  perform_all super_guess_type SimpleHTTPRequestHandler_do_GET
              version_string date_time_string fs self_path [ super_do_GET ]
  = SimpleHTTPRequestHandler_do_GET
      (self_guess_type super_guess_type) fs self_path.
Proof.
  cbn [perform_all perform].
  destruct (SimpleHTTPRequestHandler_do_GET _ fs self_path) as [sent|e];
    cbn [bind]; [rewrite app_nil_r|]; reflexivity.
Qed.

(** Every plain path other than [/] and [/favicon.ico], with or without a
    query, is left to the inherited [do_GET]: the handler makes the single
    call [super().do_GET()] and sends nothing of its own, and the outcome
    of the request, a response or an exception, is that of the inherited
    method run on this handler, with its [guess_type], for the request
    target unchanged, query included.  In particular the target of the
    root redirect is not redirected again. *)
Theorem do_GET_other_paths_delegate (fs : filesystem) (p q : str) :
  plain_path p = true ->
  p <> lit "/" ->
  p <> lit "/favicon.ico" ->
  do_GET p = Ok [ super_do_GET ]
  /\ do_GET (p ++ lit "?" ++ q) = Ok [ super_do_GET ]
  /\ serve_GET fs p
     = SimpleHTTPRequestHandler_do_GET
         (CustomHTTPRequestHandler.guess_type super_guess_type) fs p
  /\ serve_GET fs (p ++ lit "?" ++ q)
     = SimpleHTTPRequestHandler_do_GET
         (CustomHTTPRequestHandler.guess_type super_guess_type) fs
         (p ++ lit "?" ++ q).
Proof.
  intros Hp Hroot Hicon.
  apply str_eqb_neq in Hroot. apply str_eqb_neq in Hicon.
  assert (H1 : do_GET p = Ok [ super_do_GET ]).
  { unfold Handler.do_GET. rewrite urlparse_plain by exact Hp.
    cbn [bind path]. rewrite Hroot, Hicon. reflexivity. }
  assert (H2 : do_GET (p ++ lit "?" ++ q) = Ok [ super_do_GET ]).
  { destruct (urlparse_plain_query check_bracketed_netloc checknetloc p q Hp)
      as [qy [fr Hq]].
    unfold Handler.do_GET.
    change (p ++ lit "?" ++ q) with (p ++ "?"%char :: q).
    rewrite Hq. cbn [bind path]. rewrite Hroot, Hicon. reflexivity. }
  split; [exact H1|]. split; [exact H2|].
  unfold Handler.serve_GET. rewrite H1, H2. cbn [bind].
  rewrite !perform_all_super. split; reflexivity.
Qed.

(** A fragment does not change the routing either: [/#f] is redirected
    and [/favicon.ico#f] gets the 404, for every text [f]. *)
Theorem do_GET_ignores_fragment (fs : filesystem) (f : str) :
  do_GET (lit "/" ++ lit "#" ++ f) = Ok redirect_calls
  /\ serve_GET fs (lit "/" ++ lit "#" ++ f)
     = Ok (redirect_wire version_string date_time_string)
  /\ do_GET (lit "/favicon.ico" ++ lit "#" ++ f) = Ok not_found_calls
  /\ serve_GET fs (lit "/favicon.ico" ++ lit "#" ++ f)
     = Ok (not_found_wire version_string date_time_string).
Proof.
  assert (H1 : do_GET (lit "/" ++ lit "#" ++ f) = Ok redirect_calls).
  { unfold Handler.do_GET. cbn [lit list_ascii_of_string].
    change (["/"%char] ++ ["#"%char] ++ f) with (["/"%char] ++ "#"%char :: f).
    rewrite urlparse_plain_fragment by reflexivity. reflexivity. }
  assert (H2 : do_GET (lit "/favicon.ico" ++ lit "#" ++ f) = Ok not_found_calls).
  { unfold Handler.do_GET.
    change (lit "/favicon.ico" ++ lit "#" ++ f)
      with (lit "/favicon.ico" ++ "#"%char :: f).
    rewrite urlparse_plain_fragment by reflexivity. reflexivity. }
  unfold Handler.serve_GET. rewrite H1, H2. repeat split; reflexivity.
Qed.

(** Path parameters are cut off before the comparison: [/;x] is
    redirected and [/favicon.ico;x] gets the 404, for every parameter text
    [x] without [/], [?], [#]. *)
Theorem do_GET_ignores_params (fs : filesystem) (x : str) :
  free_of_delimiters x = true ->
  do_GET (lit "/" ++ lit ";" ++ x) = Ok redirect_calls
  /\ serve_GET fs (lit "/" ++ lit ";" ++ x)
     = Ok (redirect_wire version_string date_time_string)
  /\ do_GET (lit "/favicon.ico" ++ lit ";" ++ x) = Ok not_found_calls
  /\ serve_GET fs (lit "/favicon.ico" ++ lit ";" ++ x)
     = Ok (not_found_wire version_string date_time_string).
Proof.
  intros Hx.
  assert (H1 : do_GET (lit "/" ++ lit ";" ++ x) = Ok redirect_calls).
  { unfold Handler.do_GET.
    change (lit "/" ++ lit ";" ++ x) with (("/"%char :: []) ++ ";"%char :: x).
    rewrite urlparse_plain_params by (reflexivity || exact Hx). reflexivity. }
  assert (H2 : do_GET (lit "/favicon.ico" ++ lit ";" ++ x) = Ok not_found_calls).
  { unfold Handler.do_GET.
    change (lit "/favicon.ico" ++ lit ";" ++ x)
      with (("/"%char :: lit "favicon.ico") ++ ";"%char :: x).
    rewrite urlparse_plain_params by (reflexivity || exact Hx). reflexivity. }
  unfold Handler.serve_GET. rewrite H1, H2. repeat split; reflexivity.
Qed.

(** [do_GET] does not catch what [urlparse] raises: a request target in
    absolute form whose network location opens a bracket without closing
    it, such as [http://[], makes the handler raise [ValueError] before
    anything is sent. *)
Theorem do_GET_raises_on_unbalanced_bracket (fs : filesystem) (n : str) :
  free_of_delimiters n = true ->
  contains "["%char n = true ->
  contains "]"%char n = false ->
  do_GET (lit "http://" ++ n) = Raise (ValueError "Invalid IPv6 URL")
  /\ serve_GET fs (lit "http://" ++ n) = Raise (ValueError "Invalid IPv6 URL").
Proof.
  intros Hn Hopen Hclose.
  assert (H1 : do_GET (lit "http://" ++ n) = Raise (ValueError "Invalid IPv6 URL")).
  { unfold Handler.do_GET.
    rewrite urlparse_unbalanced_bracket by assumption. reflexivity. }
  split; [exact H1|]. unfold Handler.serve_GET. rewrite H1. reflexivity.
Qed.

End Routing.

Lemma do_GET_other_paths_delegate_witness :
  serve_GET no_check no_check octet_stream plain_ok "SimpleHTTP/0.6" "now" tt
            (lit "/index-standalone.html" ++ lit "?" ++ lit "v=2")
  = plain_ok (CustomHTTPRequestHandler.guess_type octet_stream) tt
             (lit "/index-standalone.html" ++ lit "?" ++ lit "v=2").
Proof.
  refine (proj2 (proj2 (proj2 (@do_GET_other_paths_delegate
            no_check no_check unit octet_stream plain_ok "SimpleHTTP/0.6" "now" tt
            "/index-standalone.html" "v=2" _ _ _)))).
  - reflexivity.
  - discriminate.
  - discriminate.
Defined.

Lemma do_GET_ignores_params_witness :
  serve_GET no_check no_check octet_stream plain_ok "SimpleHTTP/0.6" "now" tt
            (lit "/" ++ lit ";" ++ lit "jsessionid=1")
  = Ok (redirect_wire "SimpleHTTP/0.6" "now").
Proof.
  refine (proj1 (proj2 (@do_GET_ignores_params
            no_check no_check unit octet_stream plain_ok "SimpleHTTP/0.6" "now" tt
            "jsessionid=1" _))).
  reflexivity.
Defined.

Lemma do_GET_raises_on_unbalanced_bracket_witness :
  serve_GET no_check no_check octet_stream plain_ok "SimpleHTTP/0.6" "now" tt
            (lit "http://" ++ lit "[::1")
  = Raise (ValueError "Invalid IPv6 URL").
Proof.
  refine (proj2 (@do_GET_raises_on_unbalanced_bracket
            no_check no_check unit octet_stream plain_ok "SimpleHTTP/0.6" "now" tt
            "[::1" _ _ _)); reflexivity.
Defined.

End DoGetExtras.

(** ** [find_free_port]: what decides the outcome *)

Module FindFreePortExtras.

Import Server FindFreePortFacts.

(** The loop invariant fixes the result. *)
Lemma loop_post_unique (probe : Z -> option exc) (start_port port : Z)
      (r r' : list Z * outcome) :
  loop_post probe start_port port r ->
  loop_post probe start_port port r' ->
  r = r'.
Proof.
  destruct r as [probed o], r' as [probed' o']. unfold loop_post.
  assert (Hclash : forall q, bind_failed probe q -> bind_succeeded probe q -> False).
  { intros q [e [He _]] Hok. unfold bind_succeeded in Hok. congruence. }
  assert (Hother : forall q e, bind_failed probe q -> probe q = Some e ->
                               is_OSError e = false -> False).
  { intros q e [e' [He' Hos]] He Hnot. congruence. }
  destruct o as [p| |e], o' as [p'| |e'].
  - intros (Hp & Hok & Hbefore & ->) (Hp' & Hok' & Hbefore' & ->).
    assert (p = p').
    { destruct (Z.lt_trichotomy p p') as [Hlt|[Heq|Hgt]]; [|exact Heq|].
      - elim (Hclash p); [apply Hbefore'; lia|exact Hok].
      - elim (Hclash p'); [apply Hbefore; lia|exact Hok']. }
    subst p'. reflexivity.
  - intros (Hp & Hok & _) (Hall & _). elim (Hclash p); [apply Hall; lia|exact Hok].
  - intros (Hp & Hok & Hbefore & ->) (p' & Hp' & Hraise & Hnot & Hbefore' & ->).
    destruct (Z.lt_trichotomy p p') as [Hlt|[Heq|Hgt]].
    + elim (Hclash p); [apply Hbefore'; lia|exact Hok].
    + subst p'. unfold bind_succeeded in Hok. congruence.
    + elim (Hother p' e'); [apply Hbefore; lia|exact Hraise|exact Hnot].
  - intros (Hall & _) (Hp & Hok & _). elim (Hclash p'); [apply Hall; lia|exact Hok].
  - intros (_ & ->) (_ & ->). reflexivity.
  - intros (Hall & _) (p' & Hp' & Hraise & Hnot & _).
    elim (Hother p' e'); [apply Hall; lia|exact Hraise|exact Hnot].
  - intros (p0 & Hp0 & Hraise & Hnot & Hbefore & ->) (Hp' & Hok' & Hbefore' & ->).
    destruct (Z.lt_trichotomy p0 p') as [Hlt|[Heq|Hgt]].
    + elim (Hother p0 e); [apply Hbefore'; lia|exact Hraise|exact Hnot].
    + subst p'. unfold bind_succeeded in Hok'. congruence.
    + elim (Hclash p'); [apply Hbefore; lia|exact Hok'].
  - intros (p0 & Hp0 & Hraise & Hnot & _) (Hall & _).
    elim (Hother p0 e); [apply Hall; lia|exact Hraise|exact Hnot].
  - intros (p0 & Hp0 & Hraise & Hnot & Hbefore & ->)
           (p1 & Hp1 & Hraise' & Hnot' & Hbefore' & ->).
    assert (p0 = p1).
    { destruct (Z.lt_trichotomy p0 p1) as [Hlt|[Heq|Hgt]]; [|exact Heq|].
      - elim (Hother p0 e); [apply Hbefore'; lia|exact Hraise|exact Hnot].
      - elim (Hother p1 e'); [apply Hbefore; lia|exact Hraise'|exact Hnot']. }
    subst p1. replace e' with e by congruence. reflexivity.
Qed.

(** A result that satisfies the invariant is the result of the call. *)
Lemma find_free_port_is (probe : Z -> option exc) (s : Z) (r : list Z * outcome) :
  loop_post probe s s r -> find_free_port probe s = r.
Proof.
  intros Hr. unfold find_free_port.
  eapply loop_post_unique; [apply find_free_port_loop_post|exact Hr].
Qed.

Lemma ports_NoDup (lo hi : Z) : NoDup (ports lo hi).
Proof.
  unfold ports. apply Injective_map_NoDup; [|apply seq_NoDup].
  intros i j H. lia.
Qed.

Lemma ports_length (lo hi : Z) : List.length (ports lo hi) = Z.to_nat (hi - lo).
Proof. unfold ports. rewrite length_map, length_seq. reflexivity. Qed.

(** The search succeeds whenever it can: if a port [p] of the window can
    be bound and the bind fails with [OSError] on every port from the
    start up to [p], the call returns [p] after probing exactly the ports
    from the start to [p]. *)
Theorem find_free_port_finds_first_free (probe : Z -> option exc) (s p : Z) :
  s <= p < s + 100 ->
  bind_succeeded probe p ->
  (forall q, s <= q < p -> bind_failed probe q) ->
  find_free_port probe s = (ports s (p + 1), Returned p).
Proof.
  intros Hp Hok Hbefore. apply find_free_port_is. unfold loop_post.
  repeat split; try lia; assumption.
Qed.

(** An exception of a probe that is not an [OSError] ends the search: if
    the probe of [p] raises such an [e] after the binds on the ports before
    it failed with [OSError], the call raises [e] itself, not the
    exhaustion error, and no further port is probed. *)
Theorem find_free_port_propagates_other_error
        (probe : Z -> option exc) (s p : Z) (e : exc) :
  s <= p < s + 100 ->
  probe p = Some e ->
  is_OSError e = false ->
  (forall q, s <= q < p -> bind_failed probe q) ->
  find_free_port probe s = (ports s (p + 1), Propagated e)
  /\ to_result (snd (find_free_port probe s)) = Raise e.
Proof.
  intros Hp Hraise Hnot Hbefore.
  assert (Hrun : find_free_port probe s = (ports s (p + 1), Propagated e)).
  { apply find_free_port_is. unfold loop_post. exists p.
    repeat split; try lia; assumption. }
  split; [exact Hrun|]. rewrite Hrun. reflexivity.
Qed.

(** The outcome depends on the probes of the 100 ports of the window
    only: two environments that agree on them give the same ports probed
    and the same outcome. *)
Theorem find_free_port_depends_on_window_only
        (probe probe' : Z -> option exc) (s : Z) :
  (forall q, s <= q < s + 100 -> probe q = probe' q) ->
  find_free_port probe s = find_free_port probe' s.
Proof.
  intros Hagree. symmetry. apply find_free_port_is.
  pose proof (find_free_port_loop_post probe s s) as Hpost.
  unfold find_free_port.
  destruct (find_free_port_loop probe s s) as [probed o].
  assert (Hfail : forall q, s <= q < s + 100 ->
                            bind_failed probe q -> bind_failed probe' q).
  { intros q Hq [e [He Hos]]. exists e. rewrite <- Hagree by exact Hq. auto. }
  unfold loop_post in *. destruct o as [p| |e].
  - destruct Hpost as (Hp & Hok & Hbefore & Hprobed).
    split; [exact Hp|]. split.
    + unfold bind_succeeded in *. rewrite <- Hagree by exact Hp. exact Hok.
    + split; [|exact Hprobed]. intros q Hq. apply Hfail; [lia|].
      apply Hbefore, Hq.
  - destruct Hpost as (Hall & Hprobed). split; [|exact Hprobed].
    intros q Hq. apply Hfail; [exact Hq|]. apply Hall, Hq.
  - destruct Hpost as (p & Hp & Hraise & Hnot & Hbefore & Hprobed).
    exists p. split; [exact Hp|]. split.
    + rewrite <- Hagree by exact Hp. exact Hraise.
    + split; [exact Hnot|]. split; [|exact Hprobed].
      intros q Hq. apply Hfail; [lia|]. apply Hbefore, Hq.
Qed.

(** Searching again gives the same port: when the call from [s] returns
    [p], the call from any start between [s] and [p], and from [p] itself,
    returns [p] too, as long as the probes answer as before. *)
Theorem find_free_port_restart (probe : Z -> option exc) (s p s' : Z)
        (probed : list Z) :
  find_free_port probe s = (probed, Returned p) ->
  s <= s' <= p ->
  find_free_port probe s' = (ports s' (p + 1), Returned p)
  /\ find_free_port probe p = ([p], Returned p).
Proof.
  intros Hrun Hs'.
  pose proof (find_free_port_loop_post probe s s) as Hpost.
  unfold find_free_port in Hrun. rewrite Hrun in Hpost.
  destruct Hpost as (Hp & Hok & Hbefore & _).
  split.
  - apply find_free_port_is. unfold loop_post.
    split; [lia|]. split; [exact Hok|]. split; [|reflexivity].
    intros q Hq. apply Hbefore. lia.
  - replace [p] with (ports p (p + 1))
      by (rewrite ports_cons, ports_nil by lia; reflexivity).
    apply find_free_port_is. unfold loop_post.
    split; [lia|]. split; [exact Hok|]. split; [|reflexivity].
    intros q Hq. lia.
Qed.

(** No port is probed twice: the ports probed are the consecutive ports
    from the start, at least one and at most 100 of them. *)
Theorem find_free_port_probes_once (probe : Z -> option exc) (s : Z) :
  let probed := fst (find_free_port probe s) in
  NoDup probed
  /\ (1 <= List.length probed <= 100)%nat
  /\ probed = ports s (s + Z.of_nat (List.length probed)).
Proof.
  pose proof (find_free_port_loop_post probe s s) as Hpost.
  unfold find_free_port.
  destruct (find_free_port_loop probe s s) as [probed o]. cbn [fst].
  unfold loop_post in Hpost.
  assert (Hports : exists hi, s < hi <= s + 100 /\ probed = ports s hi).
  { destruct o as [p| |e].
    - destruct Hpost as (Hp & _ & _ & ->). exists (p + 1). split; [lia|reflexivity].
    - destruct Hpost as (_ & ->). exists (s + 100). split; [lia|reflexivity].
    - destruct Hpost as (p & Hp & _ & _ & _ & ->).
      exists (p + 1). split; [lia|reflexivity]. }
  destruct Hports as (hi & Hhi & ->).
  split; [apply ports_NoDup|]. rewrite ports_length. split; [lia|].
  f_equal. lia.
Qed.

Lemma find_free_port_finds_first_free_witness :
  find_free_port two_taken 8080 = (ports 8080 (8082 + 1), Returned 8082).
Proof.
  apply (@find_free_port_finds_first_free two_taken 8080 8082).
  - lia.
  - reflexivity.
  - intros q Hq. exists (OSError "[Errno 98] Address already in use").
    split; [|reflexivity].
    unfold two_taken. replace (q <? 8082) with true by (symmetry; apply Z.ltb_lt; lia).
    reflexivity.
Defined.

Lemma find_free_port_propagates_other_error_witness :
  find_free_port taken_up_to_the_last 65500
  = (ports 65500 (65536 + 1),
     Propagated (OverflowError "bind(): port must be 0-65535."))
  /\ to_result (snd (find_free_port taken_up_to_the_last 65500))
     = Raise (OverflowError "bind(): port must be 0-65535.").
Proof.
  apply (@find_free_port_propagates_other_error taken_up_to_the_last 65500 65536).
  - lia.
  - reflexivity.
  - reflexivity.
  - intros q Hq. exists (OSError "[Errno 98] Address already in use").
    split; [|reflexivity].
    unfold taken_up_to_the_last.
    replace (q <? 65536) with true by (symmetry; apply Z.ltb_lt; lia).
    reflexivity.
Defined.

Lemma find_free_port_depends_on_window_only_witness :
  find_free_port two_taken 8080 = find_free_port two_taken_in_window 8080.
Proof.
  apply (@find_free_port_depends_on_window_only two_taken two_taken_in_window 8080).
  intros q Hq. unfold two_taken_in_window.
  replace (8080 <=? q) with true by (symmetry; apply Z.leb_le; lia).
  replace (q <? 8180) with true by (symmetry; apply Z.ltb_lt; lia).
  reflexivity.
Defined.

Lemma find_free_port_restart_witness :
  find_free_port two_taken 8081 = (ports 8081 (8082 + 1), Returned 8082)
  /\ find_free_port two_taken 8082 = ([8082], Returned 8082).
Proof.
  apply (@find_free_port_restart two_taken 8080 8082 8081 [8080; 8081; 8082]).
  - reflexivity.
  - lia.
Defined.

End FindFreePortExtras.

(** ** [main]: the port served and the exit status *)

Module MainExtras.

Import Server FindFreePortFacts FindFreePortExtras.

(** The server is started on the first free port at or above 8080, and
    the banner names that port: when the binds on 8080, ..., [p - 1] fail
    and [p] can be bound, lines 98-102 run with [p], the ten banner lines
    come first on the output, and the address line reads
    [http://localhost:p]. *)
Theorem main_serves_first_free_port
        (probe : Z -> option exc) (serve : Z -> result unit) (p : Z) :
  8080 <= p < 8080 + 100 ->
  bind_succeeded probe p ->
  (forall q, 8080 <= q < p -> bind_failed probe q) ->
  try_block probe serve = (banner p, serve p)
  /\ firstn 10 (stdout (main probe serve)) = banner p
  /\ nth_error (stdout (main probe serve)) 5
     = Some (lit "   http://localhost:" ++ str_of_int p).
Proof.
  intros Hp Hok Hbefore.
  assert (Htry : try_block probe serve = (banner p, serve p)).
  { unfold try_block.
    rewrite (@find_free_port_is probe 8080 (ports 8080 (p + 1), Returned p)).
    - reflexivity.
    - unfold loop_post. repeat split; try lia; assumption. }
  split; [exact Htry|].
  unfold main. rewrite Htry.
  destruct (serve p) as [u|e]; [split; reflexivity|].
  destruct (is_KeyboardInterrupt e); [split; reflexivity|].
  destruct (is_Exception e); [split; reflexivity|].
  destruct e; split; reflexivity.
Qed.

(** An exception that ends the port search is handled like one that ends
    the serving, before anything else is printed: a [KeyboardInterrupt]
    during the search prints the line [🛑 Server stopped by user] alone,
    preceded by an empty line, and the process exits with status 0,
    although no server was started; an exception derived from [Exception]
    that is not an [OSError] is reported as [❌ Error starting server: ]
    followed by its own text, with status 1.  The outcome does not depend
    on the serving. *)
Theorem main_search_ended_by_exception
        (probe : Z -> option exc) (serve : Z -> result unit) (p : Z) (e : exc) :
  8080 <= p < 8080 + 100 ->
  probe p = Some e ->
  is_OSError e = false ->
  (forall q, 8080 <= q < p -> bind_failed probe q) ->
  try_block probe serve = ([], Raise e)
  /\ (e = KeyboardInterrupt ->
      main probe serve
      = mkProcess [ lit (String "010"%char "🛑 Server stopped by user") ] 0)
  /\ (is_Exception e = true ->
      main probe serve
      = mkProcess [ lit "❌ Error starting server: " ++ str_of_exc e ] 1).
Proof.
  intros Hp Hraise Hnot Hbefore.
  assert (Htry : try_block probe serve = ([], Raise e)).
  { unfold try_block.
    rewrite (@find_free_port_is probe 8080 (ports 8080 (p + 1), Propagated e)).
    - reflexivity.
    - unfold loop_post. exists p. repeat split; try lia; assumption. }
  split; [exact Htry|]. unfold main. rewrite Htry. split.
  - intros ->. reflexivity.
  - intros Hex. destruct e; try discriminate Hex; reflexivity.
Qed.


Lemma main_serves_first_free_port_witness :
  try_block two_taken interrupted = (banner 8082, interrupted 8082)
  /\ firstn 10 (stdout (main two_taken interrupted)) = banner 8082
  /\ nth_error (stdout (main two_taken interrupted)) 5
     = Some (lit "   http://localhost:" ++ str_of_int 8082).
Proof.
  apply (@main_serves_first_free_port two_taken interrupted 8082).
  - lia.
  - reflexivity.
  - intros q Hq. exists (OSError "[Errno 98] Address already in use").
    split; [|reflexivity].
    unfold two_taken. replace (q <? 8082) with true by (symmetry; apply Z.ltb_lt; lia).
    reflexivity.
Defined.

Lemma main_search_ended_by_exception_witness :
  main interrupted_at_8081 denied
  = mkProcess [ lit (String "010"%char "🛑 Server stopped by user") ] 0.
Proof.
  refine (proj1 (proj2 (@main_search_ended_by_exception
            interrupted_at_8081 denied 8081 KeyboardInterrupt _ _ _ _)) _);
    try reflexivity.
  - lia.
  - intros q Hq. exists (OSError "[Errno 98] Address already in use").
    split; [|reflexivity].
    unfold interrupted_at_8081.
    replace (q <? 8081) with true by (symmetry; apply Z.ltb_lt; lia).
    reflexivity.
Defined.

End MainExtras.

(** ** The screenshot script when a call fails *)

Module VerifyCompactUIExtras.

Import VerifyCompactUI PyFacts.

(** Unfolds a run and splits on the calls that fail, in program order. *)
Ltac run_cases raises :=
  unfold run, seq, perform, script_calls, target_url, screenshot_path;
  cbn [initial log running page_viewport page_url files app];
  repeat match goal with
         | |- context [raises ?c] => destruct (raises c) eqn:?; cbn
         end.

(** A failing call ends the run: in every run the calls made are the six
    calls of the script in program order up to and including the first
    one that fails, none after it, and [run] raises what that call raised;
    when no call fails all six are made and [run] returns. *)
Theorem run_stops_at_first_failure (raises : call -> option exc) :
  log (fst (run raises initial)) = attempted raises script_calls
  /\ snd (run raises initial)
     = match first_failure raises script_calls with
       | Some e => Raise e
       | None => Ok tt
       end.
Proof.
  unfold run, seq, perform, script_calls, target_url, screenshot_path.
  cbn [initial log running page_viewport page_url files app
       attempted first_failure].
  repeat match goal with
         | |- context [raises ?c] => destruct (raises c) eqn:?; cbn
         end;
    split; reflexivity.
Qed.

(** The script has no cleanup: when a call after a successful launch
    raises, the exception leaves [run] with the browser still running,
    since [browser.close()] is the last statement and nothing catches the
    exception; and unless it was the closing itself that failed, no image
    has been written. *)
Theorem run_failure_leaves_browser_running
        (raises : call -> option exc) (e : exc) :
  snd (run raises initial) = Raise e ->
  raises (chromium_launch None) = None ->
  running (fst (run raises initial)) = Some true
  /\ (raises close = None -> files (fst (run raises initial)) = []).
Proof.
  intros Hrun Hlaunch. revert Hrun.
  run_cases raises; intros Hrun; try discriminate;
    split; try reflexivity; intros; try reflexivity; congruence.
Qed.

(** The script writes at most one file, and only the expected one: in
    every run, failing or not, the files written are none, or the image of
    the 375 by 667 viewport of the target page at the fixed output path;
    the image is written exactly when the first five calls succeed. *)
Theorem run_writes_only_the_viewport_shot (raises : call -> option exc) :
  (files (fst (run raises initial)) = []
   \/ files (fst (run raises initial)) = [ (screenshot_path, viewport_shot) ])
  /\ (files (fst (run raises initial)) <> []
      <-> forall c, In c (firstn 5 script_calls) -> raises c = None).
Proof.
  unfold script_calls, target_url, screenshot_path. cbn [firstn].
  run_cases raises;
    (split; [first [left; reflexivity | right; reflexivity]|]);
    (split;
     [ intros Hne; try (elim Hne; reflexivity);
       intros c Hc; simpl in Hc;
       repeat (destruct Hc as [<-|Hc]; [assumption|]); contradiction
     | intros Hall; try discriminate;
       exfalso;
       repeat match goal with
              | H : raises ?c = Some _ |- _ =>
                  rewrite (Hall c) in H by (simpl; tauto); discriminate H
              end ]).
Qed.

Lemma run_failure_leaves_browser_running_witness :
  running (fst (run unreachable_target initial)) = Some true
  /\ (unreachable_target close = None ->
      files (fst (run unreachable_target initial)) = []).
Proof.
  apply (@run_failure_leaves_browser_running unreachable_target
           (OtherException "net::ERR_CONNECTION_REFUSED")); reflexivity.
Defined.

End VerifyCompactUIExtras.

(** ** Requests that reach the inherited file serving *)

Module InheritedServingClaims.

Import UrlParse Handler CustomHTTPRequestHandler PyFacts GuessTypeFacts
       UrlParseFacts UrlParseExtras.

(** On the handler of this program [self.guess_type] raises [ValueError]
    on every path: the inherited guesser answers with a [str]. *)
Lemma self_guess_type_raises (mimetypes_guess_type : str -> option str)
      (path : str) :
  (forall p t, mimetypes_guess_type p = Some t -> List.length t <> 2%nat) ->
  exists msg,
    self_guess_type (SimpleHTTPRequestHandler.guess_type mimetypes_guess_type)
                    path
    = Raise (ValueError msg).
Proof.
  intros Htab. unfold self_guess_type.
  destruct (GuessTypeClaims.inherited_guess_type_is_str mimetypes_guess_type path)
    as [s [Hs Hor]].
  apply guess_type_str_raises with (s := s); [exact Hs|].
  destruct Hor as [->|[Hin|Hmt]].
  - cbn. lia.
  - unfold SimpleHTTPRequestHandler.extensions_map in Hin. simpl in Hin.
    repeat (destruct Hin as [<-|Hin]; [cbn; lia|]). contradiction.
  - eapply Htab. exact Hmt.
Qed.

Section Program.

Variable check_bracketed_netloc : str -> option exc.
Variable checknetloc : str -> option exc.
Variable filesystem : Type.
Variable translate_path : str -> str.
Variable isdir : filesystem -> str -> bool.
Variable isfile : filesystem -> str -> bool.
Variable listdir : filesystem -> str -> option (list str).
Variable urlunsplit : str * str * str * str * str -> str.
Variable error_page : Z -> str -> bool -> list wire.
Variable listing_page : filesystem -> str -> str -> list str -> bool -> list wire.
Variable send_file : filesystem -> str -> value -> bool -> result (list wire).
Variable mimetypes_guess_type : str -> option str.
Variable unsupported_method : str -> list wire.
Variable version_string : str.
Variable date_time_string : str.

(** The handler with its actual superclass: the inherited guesser and the
    inherited [do_GET] and [do_HEAD]. *)
Local Notation inherited_guess_type :=
  (SimpleHTTPRequestHandler.guess_type mimetypes_guess_type).
Local Notation inherited_do_GET :=
  (InheritedServing.do_GET check_bracketed_netloc checknetloc translate_path
     isdir isfile listdir urlunsplit error_page listing_page send_file
     version_string date_time_string).
Local Notation inherited_do_HEAD :=
  (InheritedServing.do_HEAD check_bracketed_netloc checknetloc translate_path
     isdir isfile listdir urlunsplit error_page listing_page send_file
     version_string date_time_string).
Local Notation serve_GET :=
  (Handler.serve_GET check_bracketed_netloc checknetloc
     inherited_guess_type inherited_do_GET version_string date_time_string).
Local Notation handle_one_request :=
  (Handler.handle_one_request check_bracketed_netloc checknetloc
     inherited_guess_type inherited_do_GET inherited_do_HEAD
     unsupported_method version_string date_time_string).

Hypothesis no_two_character_type :
  forall p t, mimetypes_guess_type p = Some t -> List.length t <> 2%nat.

(** Once the inherited code reaches [self.guess_type], the request ends in
    the [ValueError] of line 21. *)
Lemma serve_file_raises (fs : filesystem) (path : str) (head_only : bool) :
  exists msg,
    InheritedServing.serve_file send_file
      (self_guess_type inherited_guess_type) fs path head_only
    = Raise (ValueError msg).
Proof.
  destruct (self_guess_type_raises mimetypes_guess_type path
              no_two_character_type) as [msg Hmsg].
  exists msg. unfold InheritedServing.serve_file. rewrite Hmsg. reflexivity.
Qed.

(** C10.  Only [do_GET] is overridden, so the redirect and favicon rules
    apply to GET alone.  A request with any other command is not handled
    by code of the handler class: HEAD runs the inherited [do_HEAD] of the
    library (on this handler, so with its [guess_type]), any other command
    gets the library's 501.  In particular a HEAD request for [/] is not
    redirected to [/index-standalone.html]: it ends in the library's
    directory listing (status 200), in the library's 404 when the
    directory cannot be listed, or in an exception of the inherited code;
    and a HEAD request for [/favicon.ico] does not get the bare 404 of the
    favicon rule, whereas a GET request for [/] gets the redirect. *)
Theorem other_commands_use_the_library (fs : filesystem)
        (command self_path : str) :
  command <> lit "GET" ->
  handle_one_request fs command self_path
  = (if str_eqb command "HEAD"
     then inherited_do_HEAD
            (CustomHTTPRequestHandler.guess_type inherited_guess_type)
            fs self_path
     else Ok (unsupported_method command))
  /\ ((exists msg, handle_one_request fs "HEAD" "/" = Raise (ValueError msg))
      \/ (exists rest, handle_one_request fs "HEAD" "/"
                       = Ok (StatusLine 200 :: rest))
      \/ (exists rest, handle_one_request fs "HEAD" "/"
                       = Ok (StatusLine 404 :: rest)))
  /\ handle_one_request fs "HEAD" "/"
     <> Ok (redirect_wire version_string date_time_string)
  /\ ((exists msg,
         handle_one_request fs "HEAD" "/favicon.ico" = Raise (ValueError msg))
      \/ (exists rest, handle_one_request fs "HEAD" "/favicon.ico"
                       = Ok (StatusLine 301 :: rest)))
  /\ handle_one_request fs "HEAD" "/favicon.ico"
     <> Ok (not_found_wire version_string date_time_string)
  /\ handle_one_request fs "GET" "/"
     = Ok (redirect_wire version_string date_time_string).
Proof.
  intros Hneq. apply str_eqb_neq in Hneq.
  assert (Hdispatch : forall p,
             handle_one_request fs "HEAD" p
             = inherited_do_HEAD (self_guess_type inherited_guess_type) fs p)
    by reflexivity.
  assert (Hroot :
            (exists msg, handle_one_request fs "HEAD" "/" = Raise (ValueError msg))
            \/ (exists rest, handle_one_request fs "HEAD" "/"
                             = Ok (StatusLine 200 :: rest))
            \/ (exists rest, handle_one_request fs "HEAD" "/"
                             = Ok (StatusLine 404 :: rest))).
  { rewrite Hdispatch.
    unfold InheritedServing.do_HEAD, InheritedServing.send_head.
    destruct (isdir fs (translate_path "/")).
    - change (urlsplit check_bracketed_netloc checknetloc "/")
        with (@Ok (str * str * str * str * str) ([], [], lit "/", [], [])).
      cbn [bind]. change (negb (endswith "/" "/")) with false. cbn iota.
      destruct (isfile fs _);
        [left; apply serve_file_raises|].
      destruct (isfile fs _);
        [left; apply serve_file_raises|].
      right. unfold InheritedServing.list_directory.
      destruct (listdir fs _).
      + left. eexists. reflexivity.
      + right. eexists. reflexivity.
    - left. apply serve_file_raises. }
  assert (Hicon :
            (exists msg, handle_one_request fs "HEAD" "/favicon.ico"
                         = Raise (ValueError msg))
            \/ (exists rest, handle_one_request fs "HEAD" "/favicon.ico"
                             = Ok (StatusLine 301 :: rest))).
  { rewrite Hdispatch.
    unfold InheritedServing.do_HEAD, InheritedServing.send_head.
    destruct (isdir fs (translate_path "/favicon.ico")).
    - change (urlsplit check_bracketed_netloc checknetloc "/favicon.ico")
        with (@Ok (str * str * str * str * str)
                  ([], [], lit "/favicon.ico", [], [])).
      cbn [bind]. change (negb (endswith "/favicon.ico" "/")) with true.
      cbn iota. right. eexists. reflexivity.
    - left. apply serve_file_raises. }
  split; [|split; [exact Hroot|split; [|split; [exact Hicon|split]]]].
  - unfold Handler.handle_one_request.
    rewrite HandlerClaims.resolve_do, Hneq.
    destruct (str_eqb command "HEAD") eqn:Hhead; [|reflexivity].
    apply str_eqb_eq in Hhead. subst command. reflexivity.
  - destruct Hroot as [[msg H]|[[rest H]|[rest H]]]; rewrite H;
      unfold redirect_wire; congruence.
  - destruct Hicon as [[msg H]|[rest H]]; rewrite H;
      unfold not_found_wire; congruence.
  - reflexivity.
Qed.

(** No file is served: a GET request for a plain path other than [/] and
    [/favicon.ico] whose file-system path is not a directory (a file of
    the served directory, or a path that does not exist) is passed to the
    inherited [do_GET], which asks [self.guess_type] for the type before
    it opens the file; the request ends in the [ValueError] of line 21
    and no response is produced, neither the file nor a 404. *)
Theorem delegated_GET_raises (fs : filesystem) (p : str) :
  plain_path p = true ->
  p <> lit "/" ->
  p <> lit "/favicon.ico" ->
  isdir fs (translate_path p) = false ->
  exists msg, serve_GET fs p = Raise (ValueError msg).
Proof.
  intros Hp Hroot Hicon Hdir.
  apply str_eqb_neq in Hroot. apply str_eqb_neq in Hicon.
  unfold Handler.serve_GET, Handler.do_GET.
  rewrite urlparse_plain by exact Hp. cbn [bind path].
  rewrite Hroot, Hicon. cbn [bind perform_all perform].
  unfold InheritedServing.do_GET, InheritedServing.send_head.
  rewrite Hdir.
  destruct (serve_file_raises fs (translate_path p) false) as [msg Hmsg].
  exists msg. rewrite Hmsg. reflexivity.
Qed.

End Program.

Import InheritedServing.

Lemma other_commands_use_the_library_witness :
  handle_one_request no_check no_check octet_stream
    (InheritedServing.do_GET no_check no_check site_translate_path
       site_isdir site_isfile site_listdir site_urlunsplit site_error_page
       site_listing_page site_send_file "SimpleHTTP/0.6" "now")
    (InheritedServing.do_HEAD no_check no_check site_translate_path
       site_isdir site_isfile site_listdir site_urlunsplit site_error_page
       site_listing_page site_send_file "SimpleHTTP/0.6" "now")
    not_implemented "SimpleHTTP/0.6" "now" tt "HEAD" "/"
  = Ok [ StatusLine 200; Header "Server" "SimpleHTTP/0.6"; Header "Date" "now";
         EndOfHeaders ]
  /\ handle_one_request no_check no_check octet_stream
       (InheritedServing.do_GET no_check no_check site_translate_path
          site_isdir site_isfile site_listdir site_urlunsplit site_error_page
          site_listing_page site_send_file "SimpleHTTP/0.6" "now")
       (InheritedServing.do_HEAD no_check no_check site_translate_path
          site_isdir site_isfile site_listdir site_urlunsplit site_error_page
          site_listing_page site_send_file "SimpleHTTP/0.6" "now")
       not_implemented "SimpleHTTP/0.6" "now" tt "HEAD" "/"
     <> Ok (redirect_wire "SimpleHTTP/0.6" "now").
Proof.
  pose proof (@other_commands_use_the_library no_check no_check unit
                site_translate_path site_isdir site_isfile site_listdir
                site_urlunsplit site_error_page site_listing_page
                site_send_file SimpleHTTPRequestHandler.no_mimetypes
                not_implemented "SimpleHTTP/0.6" "now"
                (fun p t H => False_ind _ (eq_ind None
                   (fun o => match o with Some _ => False | None => True end)
                   I (Some t) H))
                tt "HEAD" "/" ltac:(discriminate)) as H.
  split; [reflexivity|]. exact (proj1 (proj2 (proj2 H))).
Defined.

Lemma delegated_GET_raises_witness :
  exists msg,
    serve_GET no_check no_check octet_stream
      (InheritedServing.do_GET no_check no_check site_translate_path
         site_isdir site_isfile site_listdir site_urlunsplit site_error_page
         site_listing_page site_send_file "SimpleHTTP/0.6" "now")
      "SimpleHTTP/0.6" "now" tt "/index-standalone.html"
    = Raise (ValueError msg).
Proof.
  apply (@delegated_GET_raises no_check no_check unit
           site_translate_path site_isdir site_isfile site_listdir
           site_urlunsplit site_error_page site_listing_page
           site_send_file SimpleHTTPRequestHandler.no_mimetypes
           "SimpleHTTP/0.6" "now"
           (fun p t H => False_ind _ (eq_ind None
              (fun o => match o with Some _ => False | None => True end)
              I (Some t) H))
           tt "/index-standalone.html").
  - reflexivity.
  - discriminate.
  - discriminate.
  - reflexivity.
Defined.

End InheritedServingClaims.
